(** * Village webhook: the fulfillment endpoint of [main.py]

    A shallow embedding of the request dispatcher, the catalog loader and the
    text helpers of [main.py], and the properties its specification states
    about them.

    Modelling decisions.
    - A Python [str] is a [string]: one [ascii] per byte of its UTF-8 form.
      The delimiters the program looks for ([;], space, [_], [,], newline)
      are ASCII, so splitting and removing them acts on bytes exactly as on
      code points.  [str.strip()] and [str.lower()] are modelled on the ASCII
      range (whitespace 9-13, 28-32; letters A-Z); bytes above 127, such as
      those of the bullet marker, are neither whitespace nor cased.  Text
      that holds whitespace or cased letters beyond ASCII is outside the
      model.
    - A CSV row ([csv.DictReader]) and the request parameters are finite maps
      from names to text: [gmap string string].  A column that is absent or
      holds [None] has no entry; the program reads both through [x or ""].
    - The catalog [CAT] is a Python [dict], whose iteration order is the
      order of first insertion: an association list with distinct keys.
    - [CAT], [SECRET_HEADER] and [SECRET_TOKEN] are module globals: explicit
      arguments of the functions that read them.
    - A request is what the handler reads of it: the headers, by the name
      the framework resolves them under, and the JSON body, whose tag and
      parameters are text when present.  A response is the list of messages
      of the envelope and the HTTP status. *)

From Stdlib Require Import Ascii String.
From stdpp Require Import gmap strings list fin_maps.

(** ** Python's [str] operations *)

Module Py.

(** [str.isspace] of one character, ASCII range. *)
Definition isspace (c : ascii) : bool :=
  match c with
  | "009" | "010" | "011" | "012" | "013"
  | "028" | "029" | "030" | "031" | " " => true
  | _ => false
  end%char.

Definition isupper (c : ascii) : bool :=
  let n := nat_of_ascii c in (65 <=? n) && (n <=? 90).

Definition lower_char (c : ascii) : ascii :=
  if isupper c then ascii_of_nat (nat_of_ascii c + 32) else c.

(** [s.lower()] *)
Fixpoint lower (s : string) : string :=
  match s with
  | "" => ""
  | String c s' => String (lower_char c) (lower s')
  end.

(** [s.replace(c, "")] for a one-character [c]: every occurrence goes. *)
Fixpoint remove_char (c : ascii) (s : string) : string :=
  match s with
  | "" => ""
  | String d s' =>
      if Ascii.eqb d c then remove_char c s' else String d (remove_char c s')
  end.

Fixpoint lstrip_by (p : ascii → bool) (s : string) : string :=
  match s with
  | "" => ""
  | String c s' => if p c then lstrip_by p s' else s
  end.

Fixpoint rstrip_by (p : ascii → bool) (s : string) : string :=
  match s with
  | "" => ""
  | String c s' =>
      match rstrip_by p s' with
      | "" => if p c then "" else String c ""
      | r => String c r
      end
  end.

Definition strip_by (p : ascii → bool) (s : string) : string :=
  rstrip_by p (lstrip_by p s).

(** [s.strip()] *)
Definition strip : string → string := strip_by isspace.

Fixpoint mem (c : ascii) (chars : string) : bool :=
  match chars with
  | "" => false
  | String d chars' => Ascii.eqb c d || mem c chars'
  end.

(** [s.strip(chars)] *)
Definition strip_chars (chars : string) : string → string :=
  strip_by (λ c, mem c chars).

(** [s.split(sep)] for a one-character [sep]: the segment that is open at
    the head of [s], and the segments after it. *)
Fixpoint split_go (sep : ascii) (s : string) : string * list string :=
  match s with
  | "" => ("", [])
  | String c s' =>
      let '(seg, segs) := split_go sep s' in
      if Ascii.eqb c sep then ("", seg :: segs) else (String c seg, segs)
  end.

Definition split (sep : ascii) (s : string) : list string :=
  let '(seg, segs) := split_go sep s in seg :: segs.

(** [sep.join(l)] *)
Definition join (sep : string) (l : list string) : string :=
  String.concat sep l.

(** [q in s] *)
Fixpoint contains (q s : string) : bool :=
  String.prefix q s ||
  match s with
  | "" => false
  | String _ s' => contains q s'
  end.

(** Truth value of a [str]: non-empty. *)
Definition truthy (s : string) : bool := negb (String.eqb s "").

(** [x or y] on [str] values. *)
Definition or_ (x y : string) : string := if truthy x then x else y.

(** [o or ""] where [o] is a [str] or [None]. *)
Definition or_empty (o : option string) : string := default "" o.

End Py.

(** ** The program *)

Inductive field_key :=
  | Name | State | District | About | Attractions | Activities | Booking
  | Handicrafts | Stays | Food | Transport | Unique | Official.

Definition FIELD_MAP (k : field_key) : string :=
  match k with
  | Name => "Village Name"
  | State => "State"
  | District => "District"
  | About => "About the Village"
  | Attractions => "Places to Visit / Tourist Attractions"
  | Activities => "Activities"
  | Booking => "Booking Information"
  | Handicrafts => "Local Handicrafts / Products"
  | Stays => "Places to Stay"
  | Food => "Famous Foods / Restaurants"
  | Transport => "Transport and Accessibility"
  | Unique => "Unique Features"
  | Official => "Official Website or Contact Info"
  end.

Abbreviation row := (gmap string string).

Definition nl : string := String "010" "".

Definition normalize (s : option string) : string :=
  Py.remove_char "_" (Py.remove_char " " (Py.lower (Py.strip (Py.or_empty s)))).

(** *** The catalog: a [dict] in insertion order *)

Section Dict.
Context {V : Type}.

(** [d[k] = v]: a key already present keeps its place. *)
Fixpoint dict_set (k : string) (v : V) (d : list (string * V))
  : list (string * V) :=
  match d with
  | [] => [(k, v)]
  | (k', v') :: d' =>
      if String.eqb k' k then (k, v) :: d' else (k', v') :: dict_set k v d'
  end.

(** [d.get(k)] *)
Fixpoint dict_get (k : string) (d : list (string * V)) : option V :=
  match d with
  | [] => None
  | (k', v') :: d' => if String.eqb k' k then Some v' else dict_get k d'
  end.

(** [d.values()] *)
Definition dict_values (d : list (string * V)) : list V := d.*2.

(** [d.keys()] *)
Definition dict_keys (d : list (string * V)) : list string := d.*1.
End Dict.

Abbreviation catalog := (list (string * row)).

(** One step of the loop of [load_catalog]. *)
Definition load_row (data : catalog) (r : row) : catalog :=
  let key := normalize (r !! FIELD_MAP Name) in
  if Py.truthy key then dict_set key r data else data.

(** [load_catalog], from the rows that [csv.DictReader] yields. *)
Definition load_catalog (rows : list row) : catalog :=
  fold_left load_row rows [].

Definition placeholder : string := "Information not available.".

Definition pick (r : row) (k : field_key) (default : string) : string :=
  let col := FIELD_MAP k in
  let val := Py.strip (Py.or_empty (r !! col)) in
  if Py.truthy val then val else default.

(** [f"• {x}"] *)
Definition bullet (x : string) : string := "• " +:+ x.

(** [[x.strip() for x in text.split(";") if x.strip()]] *)
Definition items_of (text : string) : list string :=
  List.filter Py.truthy (Py.strip <$> Py.split ";" text).

Definition bullets (text : string) : string :=
  let items := items_of text in
  match items with
  | [] => text
  | _ => Py.join nl (bullet <$> items)
  end.

Record message := { text : list string }.

Definition msg (t : string) : message := {| text := [t] |}.

Definition activity_not_found : string :=
  "Requested activity not found for this place.".

Definition filter_activity_line (activities_text activity_query : string)
  : string :=
  if negb (Py.truthy activity_query) then activities_text else
  let lines := items_of activities_text in
  let q := Py.lower (Py.strip activity_query) in
  let hits := List.filter (λ ln, Py.contains q (Py.lower ln)) lines in
  match hits with
  | [] => activity_not_found
  | _ => Py.join "; " hits
  end.

(** The JSON body: [fulfillmentInfo.tag] and [sessionInfo.parameters], each
    absent or present. *)
Record body := {
  fulfillmentInfo_tag : option string;
  sessionInfo_parameters : option (gmap string string)
}.

(** The headers are keyed by the name under which [req.headers.get] finds
    them (the framework matches header names without regard to case). *)
Record request := {
  headers : gmap string string;
  get_json : option body
}.

(** [jsonify({"fulfillmentResponse": {"messages": [...]}}), status] *)
Record response := {
  messages : list message;
  status : nat
}.

Definition reply (t : string) : response :=
  {| messages := [msg t]; status := 200 |}.

Definition unauthorized : response :=
  {| messages := [msg "Unauthorized"]; status := 401 |}.

Definition place_not_found : string :=
  "I couldn't find that place. Try another village or spelling.".

(** [params.get(primary) or params.get(fallback) or ""] *)
Definition param_or (params : gmap string string) (primary fallback : string)
  : string :=
  Py.or_ (Py.or_empty (params !! primary))
         (Py.or_ (Py.or_empty (params !! fallback)) "").

(** [body.get("fulfillmentInfo", {}).get("tag", "")], where [body] is
    [request.get_json(silent=True) or {}]. *)
Definition tag_of (req : request) : string :=
  default "" (get_json req ≫= fulfillmentInfo_tag).

(** [body.get("sessionInfo", {}).get("parameters", {})] *)
Definition params_of (req : request) : gmap string string :=
  default ∅ (get_json req ≫= sessionInfo_parameters).

Definition place_raw (req : request) : string :=
  param_or (params_of req) "place" "cx_entities_place".
Definition activity_raw (req : request) : string :=
  param_or (params_of req) "activity" "cx_entities_activity".
Definition state_raw (req : request) : string :=
  param_or (params_of req) "state" "cx_entities_state".
Definition district_raw (req : request) : string :=
  param_or (params_of req) "district" "cx_entities_district".

(** [f"{p}"] of a [str] or [None]. *)
Definition fmt (p : option string) : string := default "None" p.

Section Webhook.
Variables (SECRET_HEADER SECRET_TOKEN : string) (CAT : catalog).

Definition verify_secret (req : request) : bool :=
  if negb (Py.truthy SECRET_TOKEN) then true
  else String.eqb (default "" (headers req !! SECRET_HEADER)) SECRET_TOKEN.

(** The row, or the response to send instead.  [place_key not in CAT] and
    [CAT[place_key]] are one lookup. *)
Definition by_place_required (req : request) : row + response :=
  let place_key := normalize (Some (place_raw req)) in
  if negb (Py.truthy place_key) then inr (reply place_not_found)
  else match dict_get place_key CAT with
       | None => inr (reply place_not_found)
       | Some r => inl r
       end.

(** [row, err = by_place_required()] followed by [if err: return err];
    [k] builds the text of the answer from the row. *)
Definition with_place (req : request) (k : row → string) : response :=
  match by_place_required req with
  | inr err => err
  | inl r => reply (k r)
  end.

Definition list_places_by (col_key : field_key) (val : string)
  : list (option string) :=
  let col := FIELD_MAP col_key in
  let target := normalize (Some val) in
  (λ r : row, r !! FIELD_MAP Name) <$>
    List.filter (λ r : row, String.eqb (normalize (r !! col)) target)
                (dict_values CAT).

Definition getPlaceDetails (req : request) (r : row) : string :=
  let name := pick r Name (place_raw req) in
  let state := pick r State "" in
  let district := pick r District "" in
  let about := pick r About placeholder in
  let unique := pick r Unique "" in
  let header :=
    Py.strip_chars ", "
      (name +:+ " (" +:+ district +:+ ", " +:+ state +:+ ")") in
  let text := header +:+ nl +:+ nl +:+ about in
  if Py.truthy unique && negb (String.eqb unique "Information not available.")
  then text +:+ nl +:+ nl +:+ "Unique:" +:+ nl +:+ bullets unique
  else text.

Definition getAttractions (req : request) (r : row) : string :=
  let name := pick r Name (place_raw req) in
  let attractions := bullets (pick r Attractions placeholder) in
  "Top attractions in " +:+ name +:+ ":" +:+ nl +:+ attractions.

Definition getActivities (req : request) (r : row) : string :=
  let name := pick r Name (place_raw req) in
  let activities := pick r Activities placeholder in
  let filtered := filter_activity_line activities (activity_raw req) in
  "Activities in " +:+ name +:+ ":" +:+ nl +:+ bullets filtered.

Definition getFood (req : request) (r : row) : string :=
  let name := pick r Name (place_raw req) in
  let food := bullets (pick r Food placeholder) in
  "Food in " +:+ name +:+ ":" +:+ nl +:+ food.

Definition getTransport (req : request) (r : row) : string :=
  let name := pick r Name (place_raw req) in
  let tx := bullets (pick r Transport placeholder) in
  "How to reach " +:+ name +:+ ":" +:+ nl +:+ tx.

Definition getStays (req : request) (r : row) : string :=
  let name := pick r Name (place_raw req) in
  let stays := bullets (pick r Stays placeholder) in
  "Places to stay in/near " +:+ name +:+ ":" +:+ nl +:+ stays.

Definition getHandicrafts (req : request) (r : row) : string :=
  let name := pick r Name (place_raw req) in
  let craft := bullets (pick r Handicrafts placeholder) in
  "Local crafts in " +:+ name +:+ ":" +:+ nl +:+ craft.

Definition getOfficial (req : request) (r : row) : string :=
  let name := pick r Name (place_raw req) in
  let url := pick r Official placeholder in
  "Official info for " +:+ name +:+ ":" +:+ nl +:+ url.

(** The tail of the [getRecommendations] branch, once [places] and
    [scope] are bound. *)
Definition recommend (places : list (option string)) (scope : string)
  : response :=
  match places with
  | [] => reply ("No places found for " +:+ scope +:+ ".")
  | _ =>
      let top := take 10 places in
      reply ("Recommended places in " +:+ scope +:+ ":" +:+ nl +:+
             Py.join nl ((λ p, bullet (fmt p)) <$> top))
  end.

Definition getRecommendations (req : request) : response :=
  if Py.truthy (district_raw req)
  then recommend (list_places_by District (district_raw req))
                 (district_raw req)
  else if Py.truthy (state_raw req)
  then recommend (list_places_by State (state_raw req)) (state_raw req)
  else reply "Tell me a state or district to recommend places.".

Definition fulfillment (req : request) : response :=
  if negb (verify_secret req) then unauthorized else
  let tag := tag_of req in
  if String.eqb tag "getPlaceDetails" then
    with_place req (getPlaceDetails req)
  else if String.eqb tag "getAttractions" then
    with_place req (getAttractions req)
  else if String.eqb tag "getActivities" then
    with_place req (getActivities req)
  else if String.eqb tag "getFood" then
    with_place req (getFood req)
  else if String.eqb tag "getTransport" then
    with_place req (getTransport req)
  else if String.eqb tag "getStays" then
    with_place req (getStays req)
  else if String.eqb tag "getHandicrafts" then
    with_place req (getHandicrafts req)
  else if String.eqb tag "getOfficial" then
    with_place req (getOfficial req)
  else if String.eqb tag "getRecommendations" then
    getRecommendations req
  else reply "Unhandled webhook tag.".

End Webhook.

(** ** Notions the properties are stated with *)

(** The catalog key of a row. *)
Definition key_of (r : row) : string := normalize (r !! FIELD_MAP Name).

(** The last row of [rows] whose key is [k]. *)
Fixpoint last_with_key (k : string) (rows : list row) : option row :=
  match rows with
  | [] => None
  | r :: rows' =>
      match last_with_key k rows' with
      | Some r' => Some r'
      | None => if String.eqb (key_of r) k then Some r else None
      end
  end.

(** Every character of [s] satisfies [p]. *)
Fixpoint all_chars (p : ascii → bool) (s : string) : bool :=
  match s with
  | "" => true
  | String c s' => p c && all_chars p s'
  end.

(** [q] occurs in [s] as a contiguous substring. *)
Definition substring_of (q s : string) : Prop :=
  ∃ pre post, s = pre +:+ q +:+ post.

Definition first_char (s : string) : option ascii :=
  match s with
  | "" => None
  | String c _ => Some c
  end.

Fixpoint last_char (s : string) : option ascii :=
  match s with
  | "" => None
  | String c "" => Some c
  | String _ s' => last_char s'
  end.

(** [t] is [s] without the whitespace at its two ends: what is cut off is
    whitespace, and [t] neither starts nor ends with whitespace. *)
Definition trimmed_of (s t : string) : Prop :=
  (∃ l r, s = l +:+ t +:+ r ∧
          all_chars Py.isspace l = true ∧ all_chars Py.isspace r = true) ∧
  (∀ c, first_char t = Some c → Py.isspace c = false) ∧
  (∀ c, last_char t = Some c → Py.isspace c = false).

(** A character that is no whitespace, or is the plain space. *)
Definition plain_space_or_solid (c : ascii) : bool :=
  negb (Py.isspace c) || Ascii.eqb c " ".

Definition is_not (c d : ascii) : bool := negb (Ascii.eqb d c).

Definition lower_fixed (c : ascii) : bool := Ascii.eqb (Py.lower_char c) c.

(** The Activity Filter as the specification words it: the query is
    lower-cased, and nothing else is done to it. *)
Definition filter_activity_line_as_specified
    (activities_text activity_query : string) : string :=
  if String.eqb activity_query "" then activities_text else
  let hits :=
    List.filter (λ seg, Py.contains (Py.lower activity_query) (Py.lower seg))
                (items_of activities_text) in
  match hits with
  | [] => activity_not_found
  | _ => Py.join "; " hits
  end.

(** What [getPlaceDetails] appends for the unique features of a record. *)
Definition unique_block (r : row) : string :=
  let unique := pick r Unique "" in
  if Py.truthy unique && negb (String.eqb unique "Information not available.")
  then nl +:+ nl +:+ "Unique:" +:+ nl +:+ bullets unique
  else "".

(** The tags whose handlers look the place up first. *)
Definition by_place_tags : list string :=
  ["getPlaceDetails"; "getAttractions"; "getActivities"; "getFood";
   "getTransport"; "getStays"; "getHandicrafts"; "getOfficial"].

(** The records of the catalog, in its iteration order, whose field [col]
    normalizes to what [query] normalizes to. *)
Definition candidates (CAT : catalog) (col : field_key) (query : string)
  : list row :=
  filter (λ r : row, normalize (r !! FIELD_MAP col) = normalize (Some query))
         (dict_values CAT).

(** The number of lines of [t] that start with the bullet marker. *)
Definition bullet_lines (t : string) : nat :=
  length (List.filter (String.prefix "• ") (Py.split "010" t)).

(** A character that a normalized key can hold: no space, no underscore,
    no upper-case letter. *)
Definition key_char (c : ascii) : bool :=
  negb (Ascii.eqb c " ") && negb (Ascii.eqb c "_") && negb (Py.isupper c).

(** The elements of [l], each at its first occurrence. *)
Fixpoint first_occurrences (l : list string) : list string :=
  match l with
  | [] => []
  | x :: l' => x :: filter (λ y, y ≠ x) (first_occurrences l')
  end.

(** The segments [seg :: segs] with [r] appended to the last of them. *)
Fixpoint append_last (r seg : string) (segs : list string) : list string :=
  match segs with
  | [] => [seg +:+ r]
  | x :: xs => seg :: append_last r x xs
  end.


(** The handlers that show one cell as a bulleted list: tag, title, cell. *)
Definition bulleted_handlers : list (string * string * field_key) :=
  [("getAttractions", "Top attractions in ", Attractions);
   ("getFood", "Food in ", Food);
   ("getTransport", "How to reach ", Transport);
   ("getStays", "Places to stay in/near ", Stays);
   ("getHandicrafts", "Local crafts in ", Handicrafts)].

(** A text that is not empty, holds no semicolon, and neither starts nor
    ends with whitespace: an item of a semicolon-delimited cell. *)
Definition item_like (x : string) : Prop :=
  x ≠ "" ∧ Py.mem ";" x = false ∧
  (∀ c, first_char x = Some c → Py.isspace c = false) ∧
  (∀ c, last_char x = Some c → Py.isspace c = false).

(** The number of occurrences of [c] in [s], and in the texts of [l]. *)
Fixpoint count_char (c : ascii) (s : string) : nat :=
  match s with
  | "" => 0
  | String d s' => (if Ascii.eqb d c then 1 else 0) + count_char c s'
  end.

Definition total_count (c : ascii) (l : list string) : nat :=
  foldr (λ x n, count_char c x + n) 0 l.

(** A character of the ASCII range. *)
Definition is_ascii (c : ascii) : bool :=
  match c with
  | Ascii _ _ _ _ _ _ _ b7 => negb b7
  end.


(** ** Test data *)

Definition ask (tag : string) (params : gmap string string) : request :=
  {| headers := ∅;
     get_json := Some {| fulfillmentInfo_tag := Some tag;
                         sessionInfo_parameters := Some params |} |}.

Definition green_hill : row :=
  {[ "Village Name" := "Green Hill";
     "Activities" := "Fishing; Bird watching; Hiking" ]}.

(** A village whose district, state, activities and other cells are blank. *)
Definition bare_hill : row := {[ "Village Name" := "Green Hill" ]}.

(** Twelve villages of one district, and one of another. *)
Definition village (name district : string) : row :=
  {[ "Village Name" := name; "District" := district ]}.

Definition kullu_rows : list row :=
  ((λ n, village n "Kullu") <$>
     ["Naggar"; "Manikaran"; "Kasol"; "Tosh"; "Malana"; "Jana"; "Banjar";
      "Jibhi"; "Shoja"; "Sainj"; "Tirthan"; "Gushaini"])
  ++ [village "Kibber" "Lahaul and Spiti"].

(** The answer for the district of the twelve: the first ten, in the
    order of the rows. *)
Definition kullu_answer : string :=
  Py.join nl
    ["Recommended places in Kullu:"; "• Naggar"; "• Manikaran"; "• Kasol";
     "• Tosh"; "• Malana"; "• Jana"; "• Banjar"; "• Jibhi"; "• Shoja";
     "• Sainj"].

(** A village whose attractions cell has blank items and stray spaces. *)
Definition lake_view : row :=
  {[ "Village Name" := " Lake View ";
     "Places to Visit / Tourist Attractions" := " Temple; Lake ;; Fort " ]}.

(** Two spellings of one village around a row with no name. *)
Definition first_spelling : row :=
  {[ "Village Name" := "Green Hill"; "State" := "Old" ]}.
Definition nameless : row := {[ "State" := "Nowhere" ]}.
Definition second_spelling : row :=
  {[ "Village Name" := " green_hill"; "State" := "New" ]}.


(** Closed facts are settled by evaluation. *)
Ltac evaluate := vm_compute; first [reflexivity | discriminate].

(** ** Sanity checks of the embedding *)

Example py_split : Py.split ";" "a;;b;" = ["a"; ""; "b"; ""].
Proof. evaluate. Qed.

Example py_strip : Py.strip (String "009" " a b  ") = "a b".
Proof. evaluate. Qed.

Example py_strip_chars : Py.strip_chars ", " ", a, b ," = "a, b".
Proof. evaluate. Qed.

Example py_lower : Py.lower "Green_Hill 9" = "green_hill 9".
Proof. evaluate. Qed.

Example py_contains :
  Py.contains "bird" "bird watching" = true ∧
  Py.contains " bird" "bird watching" = false.
Proof. split; evaluate. Qed.

Example normalize_spellings :
  normalize (Some "Example Village") = "examplevillage" ∧
  normalize (Some "example_village") = "examplevillage" ∧
  normalize (Some " EXAMPLE VILLAGE ") = "examplevillage" ∧
  normalize None = "".
Proof. split_and!; evaluate. Qed.

Example bullets_three :
  bullets "Fishing; Bird watching; Hiking"
  = "• Fishing" +:+ nl +:+ "• Bird watching" +:+ nl +:+ "• Hiking".
Proof. evaluate. Qed.

Example green_hill_activities :
  fulfillment "X-DF-Secret" "" (load_catalog [green_hill])
    (ask "getActivities" {[ "place" := " green_hill " ]})
  = reply ("Activities in Green Hill:" +:+ nl +:+ "• Fishing" +:+ nl +:+
           "• Bird watching" +:+ nl +:+ "• Hiking").
Proof. evaluate. Qed.

Example unknown_tag :
  fulfillment "X-DF-Secret" "" [] (ask "doSomethingUnknown" ∅)
  = reply "Unhandled webhook tag.".
Proof. evaluate. Qed.

(** ** Truth values *)

Lemma truthy_true (s : string) : Py.truthy s = true ↔ s ≠ "".
Proof.
  unfold Py.truthy. rewrite negb_true_iff.
  destruct (String.eqb_spec s ""); split; congruence.
Qed.

Lemma truthy_false (s : string) : Py.truthy s = false ↔ s = "".
Proof.
  unfold Py.truthy. rewrite negb_false_iff. apply String.eqb_eq.
Qed.

(** ** Facts about the string operations *)

Section Strings.
Implicit Types (s t q : string) (c d : ascii) (p : ascii → bool).

Lemma app_nil_l s : "" +:+ s = s.
Proof. reflexivity. Qed.

Lemma app_cons c s t : String c s +:+ t = String c (s +:+ t).
Proof. reflexivity. Qed.

Lemma app_nil_r s : s +:+ "" = s.
Proof. induction s as [|c s IH]; [done|]. by rewrite app_cons, IH. Qed.

Lemma app_assoc s t q : (s +:+ t) +:+ q = s +:+ t +:+ q.
Proof. induction s as [|c s IH]; [done|]. by rewrite !app_cons, IH. Qed.

Lemma length_app s t :
  String.length (s +:+ t) = String.length s + String.length t.
Proof. induction s as [|c s IH]; [done|]. rewrite app_cons. simpl. lia. Qed.

Lemma all_chars_app p s t :
  all_chars p (s +:+ t) = all_chars p s && all_chars p t.
Proof.
  induction s as [|c s IH]; [done|].
  rewrite app_cons. simpl. by rewrite IH, andb_assoc.
Qed.

Lemma all_chars_impl p1 p2 s :
  (∀ c, p1 c = true → p2 c = true) →
  all_chars p1 s = true → all_chars p2 s = true.
Proof.
  intros Hp. induction s as [|c s IH]; simpl; [done|].
  rewrite !andb_true_iff. intros [? ?]. split; auto.
Qed.

Lemma all_chars_and p1 p2 s :
  all_chars p1 s = true → all_chars p2 s = true →
  all_chars (λ c, p1 c && p2 c) s = true.
Proof.
  induction s as [|c s IH]; simpl; [done|].
  rewrite !andb_true_iff. intros [? ?] [? ?]. auto.
Qed.

(** *** [split] and [join] *)

Lemma join_cons sep s (l : list string) :
  l ≠ [] → Py.join sep (s :: l) = s +:+ sep +:+ Py.join sep l.
Proof. by destruct l. Qed.

Lemma join_two_cons sep s t (l : list string) :
  Py.join sep (s :: t :: l) = s +:+ sep +:+ Py.join sep (t :: l).
Proof. reflexivity. Qed.

Lemma join_head_cons sep c s (l : list string) :
  Py.join sep (String c s :: l) = String c (Py.join sep (s :: l)).
Proof. by destruct l. Qed.

Lemma split_go_spec (sep : ascii) s :
  Py.join (String sep "") ((Py.split_go sep s).1 :: (Py.split_go sep s).2) = s
  ∧ Forall (λ seg, Py.mem sep seg = false)
           ((Py.split_go sep s).1 :: (Py.split_go sep s).2).
Proof.
  induction s as [|c s [IHj IHf]].
  - split; [done|]. by repeat constructor.
  - cbn [Py.split_go].
    destruct (Py.split_go sep s) as [seg segs]. cbn [fst snd] in *.
    destruct (Ascii.eqb_spec c sep) as [->|Hc]; cbn [fst snd].
    + split; [|by constructor].
      by rewrite join_two_cons, app_nil_l, app_cons, app_nil_l, IHj.
    + split; [by rewrite join_head_cons, IHj|].
      apply Forall_cons in IHf as [Hseg Hsegs].
      constructor; [|done]. cbn [Py.mem].
      destruct (Ascii.eqb_spec sep c); [congruence|done].
Qed.

(** Joining the segments with the separator gives the text back. *)
Lemma join_split (sep : ascii) s :
  Py.join (String sep "") (Py.split sep s) = s.
Proof.
  unfold Py.split. pose proof (split_go_spec sep s) as [H _].
  by destruct (Py.split_go sep s).
Qed.

(** No segment holds the separator. *)
Lemma split_no_sep (sep : ascii) s :
  Forall (λ seg, Py.mem sep seg = false) (Py.split sep s).
Proof.
  unfold Py.split. pose proof (split_go_spec sep s) as [_ H].
  by destruct (Py.split_go sep s).
Qed.

Lemma split_nonempty (sep : ascii) s : Py.split sep s ≠ [].
Proof. unfold Py.split. by destruct (Py.split_go sep s). Qed.

(** A text without the separator is its own single segment. *)
Lemma split_no_occurrence (sep : ascii) s :
  Py.mem sep s = false → Py.split sep s = [s].
Proof.
  unfold Py.split. induction s as [|c s IH]; simpl; [done|].
  rewrite orb_false_iff. intros [Hc Hs]. specialize (IH Hs).
  destruct (Py.split_go sep s) as [seg segs]. simplify_eq.
  rewrite Ascii.eqb_sym in Hc. by rewrite Hc.
Qed.

Lemma mem_app c s t : Py.mem c (s +:+ t) = Py.mem c s || Py.mem c t.
Proof.
  induction s as [|d s IH]; [done|]. rewrite app_cons. simpl.
  by rewrite IH, orb_assoc.
Qed.

Lemma split_app_sep (sep : ascii) s t :
  Py.mem sep s = false →
  Py.split sep (s +:+ String sep t) = s :: Py.split sep t.
Proof.
  unfold Py.split. induction s as [|c s IH].
  - intros _. rewrite app_nil_l. cbn [Py.split_go].
    rewrite Ascii.eqb_refl. by destruct (Py.split_go sep t).
  - cbn [Py.mem]. intros [Hc Hs]%orb_false_iff. specialize (IH Hs).
    rewrite app_cons. cbn [Py.split_go].
    destruct (Py.split_go sep (s +:+ String sep t)) as [seg segs].
    rewrite Ascii.eqb_sym in Hc. rewrite Hc. by simplify_eq.
Qed.

(** Splitting what was joined gives the pieces back, when no piece holds
    the separator. *)
Lemma split_join (sep : ascii) (l : list string) :
  l ≠ [] → Forall (λ x, Py.mem sep x = false) l →
  Py.split sep (Py.join (String sep "") l) = l.
Proof.
  induction l as [|x [|y l] IH]; [done| |].
  - intros _ [Hx _]%Forall_cons. by apply split_no_occurrence.
  - intros _ [Hx Hl]%Forall_cons. rewrite join_two_cons, app_cons, app_nil_l.
    rewrite split_app_sep by done. by rewrite IH.
Qed.

(** *** [strip] *)

Lemma lstrip_by_decompose p s :
  ∃ l, s = l +:+ Py.lstrip_by p s ∧ all_chars p l = true.
Proof.
  induction s as [|c s (l & Hl & Hp)]; simpl.
  - by exists "".
  - destruct (p c) eqn:Hc.
    + exists (String c l). rewrite app_cons, <-Hl. simpl.
      by rewrite Hc, Hp.
    + by exists "".
Qed.

Lemma lstrip_by_idem p s :
  Py.lstrip_by p (Py.lstrip_by p s) = Py.lstrip_by p s.
Proof.
  induction s as [|c s IH]; simpl; [done|].
  destruct (p c) eqn:Hc; [done|]. simpl. by rewrite Hc.
Qed.

Lemma rstrip_by_decompose p s :
  ∃ r, s = Py.rstrip_by p s +:+ r ∧ all_chars p r = true.
Proof.
  induction s as [|c s (r & Hr & Hp)]; simpl.
  - by exists "".
  - destruct (Py.rstrip_by p s) as [|c' s'] eqn:Hs.
    + destruct (p c) eqn:Hc.
      * exists (String c r). rewrite app_nil_l in *. subst r. simpl.
        by rewrite Hc, Hp.
      * exists r. by rewrite !app_cons, <-Hr.
    + exists r. by rewrite app_cons, <-Hr.
Qed.

Lemma rstrip_by_idem p s :
  Py.rstrip_by p (Py.rstrip_by p s) = Py.rstrip_by p s.
Proof.
  induction s as [|c s IH]; simpl; [done|].
  destruct (Py.rstrip_by p s) as [|c' s'] eqn:Hs.
  - destruct (p c) eqn:Hc; simpl; [done|]. by rewrite Hc.
  - simpl. simpl in IH. by rewrite IH.
Qed.

Lemma lstrip_by_first p s c :
  first_char (Py.lstrip_by p s) = Some c → p c = false.
Proof.
  induction s as [|d s IH]; simpl; [done|].
  destruct (p d) eqn:Hd; [done|]. simpl. by intros [= <-].
Qed.

(** Stripping on the right leaves the first character in place. *)
Lemma rstrip_by_first p s c :
  first_char (Py.rstrip_by p s) = Some c → first_char s = Some c.
Proof.
  destruct s as [|d s]; simpl; [done|].
  destruct (Py.rstrip_by p s); [destruct (p d)|]; done.
Qed.

Lemma rstrip_by_last p s c :
  last_char (Py.rstrip_by p s) = Some c → p c = false.
Proof.
  induction s as [|d s IH]; simpl; [done|].
  destruct (Py.rstrip_by p s) as [|d' s'] eqn:Hs.
  - destruct (p d) eqn:Hd; simpl; [done|]. by intros [= <-].
  - done.
Qed.

(** A text that ends with a character that stays is not cut on the right,
    and is cut on the left as the text before that character is. *)
Lemma rstrip_by_snoc p s c :
  p c = false → Py.rstrip_by p (s +:+ String c "") = s +:+ String c "".
Proof.
  intros Hc. induction s as [|d s IH].
  - simpl. by rewrite Hc.
  - rewrite app_cons. cbn [Py.rstrip_by]. rewrite IH. by destruct s.
Qed.

Lemma lstrip_by_snoc p s c :
  p c = false →
  Py.lstrip_by p (s +:+ String c "") = Py.lstrip_by p s +:+ String c "".
Proof.
  intros Hc. induction s as [|d s IH].
  - simpl. by rewrite Hc.
  - rewrite app_cons. simpl. by destruct (p d).
Qed.

Lemma strip_by_snoc p s c :
  p c = false →
  Py.strip_by p (s +:+ String c "") = Py.lstrip_by p s +:+ String c "".
Proof.
  intros Hc. unfold Py.strip_by.
  by rewrite lstrip_by_snoc, rstrip_by_snoc.
Qed.

Lemma strip_by_fixed p s :
  all_chars (λ c, negb (p c)) s = true → Py.strip_by p s = s.
Proof.
  unfold Py.strip_by. intros H.
  assert (Py.lstrip_by p s = s) as ->.
  { destruct s as [|c s]; simpl in *; [done|].
    apply andb_true_iff in H as [->%negb_true_iff _]. done. }
  induction s as [|c s IH]; simpl in *; [done|].
  apply andb_true_iff in H as [Hc%negb_true_iff Hs].
  rewrite IH by done. rewrite Hc. by destruct s.
Qed.

Lemma strip_trimmed s : trimmed_of s (Py.strip s).
Proof.
  unfold Py.strip, Py.strip_by. split.
  - pose proof (lstrip_by_decompose Py.isspace s) as (l & Hl & Hpl).
    pose proof (rstrip_by_decompose Py.isspace (Py.lstrip_by Py.isspace s))
      as (r & Hr & Hpr).
    exists l, r. split_and!; [|done..]. by rewrite <-Hr.
  - split; intros c Hc.
    + by apply rstrip_by_first, lstrip_by_first in Hc.
    + by apply rstrip_by_last in Hc.
Qed.

Lemma all_chars_lstrip_by p p' s :
  all_chars p s = true → all_chars p (Py.lstrip_by p' s) = true.
Proof.
  intros H. pose proof (lstrip_by_decompose p' s) as (l & Hl & _).
  rewrite Hl, all_chars_app in H. by apply andb_true_iff in H as [_ ?].
Qed.

Lemma all_chars_rstrip_by p p' s :
  all_chars p s = true → all_chars p (Py.rstrip_by p' s) = true.
Proof.
  intros H. pose proof (rstrip_by_decompose p' s) as (r & Hr & _).
  rewrite Hr, all_chars_app in H. by apply andb_true_iff in H as [? _].
Qed.

Lemma all_chars_strip p s :
  all_chars p s = true → all_chars p (Py.strip s) = true.
Proof. intros. by apply all_chars_rstrip_by, all_chars_lstrip_by. Qed.

(** *** Substrings *)

Lemma prefix_spec q s : String.prefix q s = true ↔ ∃ post, s = q +:+ post.
Proof.
  revert s. induction q as [|c q IH]; intros s.
  - split; [intros _; by exists s | by destruct s].
  - destruct s as [|d s]; simpl.
    + split; [done | by intros [post ?]].
    + destruct (ascii_dec c d) as [->|Hne].
      * rewrite IH. split; intros [post Hpost]; exists post.
        -- by rewrite app_cons, <-Hpost.
        -- rewrite app_cons in Hpost. congruence.
      * split; [done|]. intros [post Hpost].
        rewrite app_cons in Hpost. congruence.
Qed.

Lemma contains_spec q s : Py.contains q s = true ↔ substring_of q s.
Proof.
  unfold substring_of. induction s as [|c s IH]; cbn [Py.contains].
  - rewrite orb_false_r, prefix_spec. split.
    + intros [post H]. by exists "", post.
    + intros ([|??] & post & H); [by exists post | done].
  - rewrite orb_true_iff, prefix_spec, IH. split.
    + intros [[post H]|(pre & post & H)].
      * by exists "", post.
      * exists (String c pre), post. by rewrite app_cons, <-H.
    + intros ([|c' pre] & post & H).
      * left. by exists post.
      * right. exists pre, post. rewrite app_cons in H. congruence.
Qed.

Lemma contains_empty s : Py.contains "" s = true.
Proof. apply contains_spec. by exists "", s. Qed.

(** *** [lower] and [replace] *)

Lemma lower_char_idem c : Py.lower_char (Py.lower_char c) = Py.lower_char c.
Proof. by destruct c as [[] [] [] [] [] [] [] []]. Qed.

Lemma isspace_lower_char c : Py.isspace (Py.lower_char c) = Py.isspace c.
Proof. by destruct c as [[] [] [] [] [] [] [] []]. Qed.

Lemma lower_char_space c :
  Ascii.eqb (Py.lower_char c) " " = Ascii.eqb c " ".
Proof. by destruct c as [[] [] [] [] [] [] [] []]. Qed.

Lemma lower_char_underscore c :
  Ascii.eqb (Py.lower_char c) "_" = Ascii.eqb c "_".
Proof. by destruct c as [[] [] [] [] [] [] [] []]. Qed.

Lemma lower_idem s : Py.lower (Py.lower s) = Py.lower s.
Proof.
  induction s as [|c s IH]; simpl; [done|]. by rewrite lower_char_idem, IH.
Qed.

Lemma lower_app s t : Py.lower (s +:+ t) = Py.lower s +:+ Py.lower t.
Proof.
  induction s as [|c s IH]; [done|]. rewrite app_cons. simpl.
  by rewrite IH.
Qed.

Lemma lower_is_fixed s : all_chars lower_fixed (Py.lower s) = true.
Proof.
  induction s as [|c s IH]; simpl; [done|].
  unfold lower_fixed at 1. by rewrite lower_char_idem, Ascii.eqb_refl.
Qed.

Lemma lower_of_fixed s : all_chars lower_fixed s = true → Py.lower s = s.
Proof.
  induction s as [|c s IH]; simpl; [done|].
  intros [Hc%Ascii.eqb_eq Hs]%andb_true_iff. by rewrite Hc, IH.
Qed.

Lemma all_chars_lower p s :
  (∀ c, p c = true → p (Py.lower_char c) = true) →
  all_chars p s = true → all_chars p (Py.lower s) = true.
Proof.
  intros Hp. induction s as [|c s IH]; simpl; [done|].
  intros [Hc Hs]%andb_true_iff. by rewrite Hp, IH.
Qed.

Lemma all_chars_remove_char p c s :
  all_chars p s = true → all_chars p (Py.remove_char c s) = true.
Proof.
  induction s as [|d s IH]; simpl; [done|].
  intros [Hd Hs]%andb_true_iff.
  destruct (Ascii.eqb d c); simpl; [auto | by rewrite Hd, IH].
Qed.

Lemma remove_char_removed c s :
  all_chars (is_not c) (Py.remove_char c s) = true.
Proof.
  induction s as [|d s IH]; simpl; [done|].
  destruct (Ascii.eqb d c) eqn:Hd; simpl; [done|].
  unfold is_not at 1. by rewrite Hd, IH.
Qed.

Lemma remove_char_of_absent c s :
  all_chars (is_not c) s = true → Py.remove_char c s = s.
Proof.
  induction s as [|d s IH]; simpl; [done|].
  unfold is_not at 1. intros [Hd%negb_true_iff Hs]%andb_true_iff.
  by rewrite Hd, IH.
Qed.

End Strings.

(** ** The normalizer *)

Section Normalize.

(** Three facts about every normalized key: no space, no underscore, no
    upper-case letter. *)
Lemma normalize_chars (o : option string) :
  all_chars (is_not " ") (normalize o) = true ∧
  all_chars (is_not "_") (normalize o) = true ∧
  all_chars lower_fixed (normalize o) = true.
Proof.
  unfold normalize. split_and!.
  - apply all_chars_remove_char, remove_char_removed.
  - apply remove_char_removed.
  - do 2 apply all_chars_remove_char. apply lower_is_fixed.
Qed.

(** Normalizing a key again only strips it. *)
Lemma normalize_normalize (o : option string) :
  normalize (Some (normalize o)) = Py.strip (normalize o).
Proof.
  destruct (normalize_chars o) as (Hsp & Hus & Hlow).
  unfold normalize at 1. cbn [Py.or_empty default].
  rewrite lower_of_fixed by by apply all_chars_strip.
  rewrite (remove_char_of_absent " ") by by apply all_chars_strip.
  by rewrite remove_char_of_absent by by apply all_chars_strip.
Qed.

Lemma plain_space_lower_char (c : ascii) :
  plain_space_or_solid c = true →
  plain_space_or_solid (Py.lower_char c) = true.
Proof.
  unfold plain_space_or_solid.
  by rewrite isspace_lower_char, lower_char_space.
Qed.

(** When the only whitespace of [x] is the plain space, its key holds no
    whitespace at all. *)
Lemma normalize_solid (x : string) :
  all_chars plain_space_or_solid x = true →
  all_chars (λ c, negb (Py.isspace c)) (normalize (Some x)) = true.
Proof.
  intros Hx. unfold normalize. cbn [Py.or_empty default].
  apply all_chars_remove_char.
  eapply all_chars_impl;
    [|apply all_chars_and;
       [apply (remove_char_removed " ")
       |apply all_chars_remove_char, all_chars_lower,
          all_chars_strip, Hx; apply plain_space_lower_char]].
  intros c. unfold is_not, plain_space_or_solid.
  destruct (Ascii.eqb c " "), (Py.isspace c); done.
Qed.

End Normalize.

(** ** The bulleter and the activity filter *)

Lemma items_of_elem (text x : string) :
  x ∈ items_of text ↔ x ≠ "" ∧ ∃ seg, seg ∈ Py.split ";" text ∧ x = Py.strip seg.
Proof.
  unfold items_of. rewrite list_elem_of_In, filter_In, <-list_elem_of_In.
  rewrite list_elem_of_fmap, truthy_true. split.
  - intros [(seg & -> & Hseg) Hx]. eauto.
  - intros [Hx (seg & Hseg & ->)]. eauto.
Qed.

Lemma bullets_none (text : string) : items_of text = [] → bullets text = text.
Proof. unfold bullets. by intros ->. Qed.

Lemma bullets_some (text : string) :
  items_of text ≠ [] → bullets text = Py.join nl (bullet <$> items_of text).
Proof. unfold bullets. by destruct (items_of text). Qed.

(** A text without semicolon that is not blank is one item. *)
Lemma bullets_single (text : string) :
  Py.mem ";" text = false → Py.strip text ≠ "" →
  bullets text = bullet (Py.strip text).
Proof.
  intros Hsemi Hne%truthy_true. unfold bullets, items_of.
  rewrite split_no_occurrence by done. simpl. by rewrite Hne.
Qed.

Lemma filter_none {A} (f : A → bool) (l : list A) :
  (∀ x, x ∈ l → f x = false) → List.filter f l = [].
Proof.
  induction l as [|x l IH]; [done|]. intros Hl. simpl.
  rewrite (Hl x) by by left. apply IH. intros y Hy. apply Hl. by right.
Qed.

Lemma filter_activity_line_empty_query (a : string) :
  filter_activity_line a "" = a.
Proof. reflexivity. Qed.

Lemma filter_activity_line_query (a q : string) :
  q ≠ "" →
  filter_activity_line a q
  = match List.filter (λ ln, Py.contains (Py.lower (Py.strip q)) (Py.lower ln))
                      (items_of a) with
    | [] => activity_not_found
    | hits => Py.join "; " hits
    end.
Proof.
  intros Hq%truthy_true. unfold filter_activity_line. rewrite Hq. simpl.
  by destruct (List.filter _ _).
Qed.

(** ** The insertion-ordered dictionary *)

Section DictFacts.
Context {V : Type}.
Implicit Types (d : list (string * V)) (k : string) (v : V).

Lemma dict_get_set_eq k v d : dict_get k (dict_set k v d) = Some v.
Proof.
  induction d as [|[k' v'] d IH]; simpl.
  - by rewrite String.eqb_refl.
  - destruct (String.eqb_spec k' k) as [->|Hne]; simpl.
    + by rewrite String.eqb_refl.
    + by destruct (String.eqb_spec k' k).
Qed.

Lemma dict_get_set_ne k k' v d :
  k ≠ k' → dict_get k' (dict_set k v d) = dict_get k' d.
Proof.
  intros Hne. induction d as [|[k0 v0] d IH]; simpl.
  - by destruct (String.eqb_spec k k').
  - destruct (String.eqb_spec k0 k) as [->|Hk]; simpl.
    + by destruct (String.eqb_spec k k').
    + by rewrite IH.
Qed.

Lemma dict_keys_cons k v d : dict_keys ((k, v) :: d) = k :: dict_keys d.
Proof. reflexivity. Qed.

Lemma dict_get_None k d : dict_get k d = None ↔ k ∉ dict_keys d.
Proof.
  induction d as [|[k' v'] d IH].
  - split; [intros _; apply not_elem_of_nil | done].
  - rewrite dict_keys_cons, not_elem_of_cons. simpl.
    destruct (String.eqb_spec k' k) as [->|Hk].
    + split; [done | by intros [? _]].
    + rewrite IH. split; [by split | by intros [_ ?]].
Qed.

Lemma dict_keys_set k v d :
  dict_keys (dict_set k v d)
  = match dict_get k d with
    | Some _ => dict_keys d
    | None => dict_keys d ++ [k]
    end.
Proof.
  induction d as [|[k' v'] d IH]; [done|]. simpl.
  destruct (String.eqb_spec k' k) as [->|Hk]; [done|].
  rewrite !dict_keys_cons, IH. by destruct (dict_get k d).
Qed.

Lemma dict_set_NoDup k v d :
  NoDup (dict_keys d) → NoDup (dict_keys (dict_set k v d)).
Proof.
  intros Hd. rewrite dict_keys_set.
  destruct (dict_get k d) eqn:Hg; [done|].
  apply NoDup_app. split_and!; [done| |apply NoDup_singleton].
  intros x Hx ->%list_elem_of_singleton. by apply dict_get_None in Hg.
Qed.
End DictFacts.

(** ** The catalog loader *)

Lemma load_row_blank (data : catalog) (r : row) :
  key_of r = "" → load_row data r = data.
Proof. unfold load_row, key_of. by intros ->. Qed.

Lemma load_row_keyed (data : catalog) (r : row) :
  key_of r ≠ "" → load_row data r = dict_set (key_of r) r data.
Proof.
  unfold load_row. fold (key_of r). intros H%truthy_true. by rewrite H.
Qed.

Lemma load_row_NoDup (data : catalog) (r : row) :
  NoDup (dict_keys data) → NoDup (dict_keys (load_row data r)).
Proof.
  unfold load_row. destruct (Py.truthy _); [apply dict_set_NoDup | done].
Qed.

Lemma load_rows_NoDup (rows : list row) (data : catalog) :
  NoDup (dict_keys data) → NoDup (dict_keys (fold_left load_row rows data)).
Proof.
  revert data. induction rows as [|r rows IH]; intros data Hd; simpl; [done|].
  by apply IH, load_row_NoDup.
Qed.

(** What the loop leaves under key [k]: the last row with that key when
    there is one and the key is not blank, and what was there before
    otherwise. *)
Lemma load_rows_get (rows : list row) (data : catalog) (k : string) :
  dict_get k (fold_left load_row rows data)
  = match last_with_key k rows with
    | Some r => if Py.truthy k then Some r else dict_get k data
    | None => dict_get k data
    end.
Proof.
  revert data. induction rows as [|r rows IH]; intros data; simpl; [done|].
  rewrite IH. destruct (last_with_key k rows) as [r'|]; simpl.
  - destruct (Py.truthy k) eqn:Hk; [done|].
    apply truthy_false in Hk as ->. unfold load_row.
    destruct (Py.truthy _) eqn:Hr; [|done].
    apply truthy_true in Hr. by rewrite dict_get_set_ne.
  - unfold load_row. fold (key_of r).
    destruct (String.eqb_spec (key_of r) k) as [<-|Hne].
    + destruct (Py.truthy (key_of r)); [apply dict_get_set_eq | done].
    + destruct (Py.truthy (key_of r)); [by rewrite dict_get_set_ne | done].
Qed.

Lemma last_with_key_Some (k : string) (rows : list row) (r : row) :
  last_with_key k rows = Some r → key_of r = k ∧ r ∈ rows.
Proof.
  induction rows as [|r0 rows IH]; simpl; [done|].
  destruct (last_with_key k rows) as [r'|].
  - intros [= <-]. destruct IH as [? ?]; [done|]. split; [done|by right].
  - destruct (String.eqb_spec (key_of r0) k); [|done].
    intros [= <-]. split; [done|by left].
Qed.

Lemma last_with_key_None (k : string) (rows : list row) :
  last_with_key k rows = None ↔ Forall (λ r, key_of r ≠ k) rows.
Proof.
  induction rows as [|r0 rows IH]; simpl.
  - split; [by constructor | done].
  - rewrite Forall_cons. destruct (last_with_key k rows) as [r'|].
    + split; [done|]. intros [_ H]. by apply IH in H.
    + destruct (String.eqb_spec (key_of r0) k) as [Hk|Hk].
      * split; [done | by intros [? _]].
      * split; [|done]. intros _. split; [done|]. by apply IH.
Qed.

Lemma last_with_key_app (k : string) (pre post : list row) :
  last_with_key k (pre ++ post)
  = match last_with_key k post with
    | Some r => Some r
    | None => last_with_key k pre
    end.
Proof.
  induction pre as [|r0 pre IH]; simpl.
  - by destruct (last_with_key k post).
  - rewrite IH. by destruct (last_with_key k post).
Qed.

(** ** The dispatcher *)

Section Dispatch.
Context (HDR TOKEN : string) (CAT : catalog) (req : request).





Lemma by_place_required_miss :
  normalize (Some (place_raw req)) = "" ∨
  normalize (Some (place_raw req)) ∉ dict_keys CAT →
  by_place_required CAT req = inr (reply place_not_found).
Proof.
  unfold by_place_required. intros [->|Hk%dict_get_None]; [done|].
  rewrite Hk. by destruct (Py.truthy _).
Qed.

Lemma by_place_required_hit (r : row) :
  by_place_required CAT req = inl r ↔
  normalize (Some (place_raw req)) ≠ "" ∧
  dict_get (normalize (Some (place_raw req))) CAT = Some r.
Proof.
  unfold by_place_required. rewrite <-truthy_true.
  destruct (Py.truthy _); cbn [negb].
  - destruct (dict_get _ CAT) as [r'|].
    + split; [by intros [= ->] | by intros [_ [= ->]]].
    + split; [done | by intros [_ ?]].
  - split; [done | by intros [? _]].
Qed.

Lemma list_places_by_candidates (col : field_key) (query : string) :
  list_places_by CAT col query
  = (λ r : row, r !! FIELD_MAP Name) <$> candidates CAT col query.
Proof.
  unfold list_places_by, candidates. f_equal.
  induction (dict_values CAT) as [|r l IH]; [done|].
  rewrite filter_cons. cbn [List.filter]. rewrite IH.
  destruct (String.eqb_spec (normalize (r !! FIELD_MAP col))
                            (normalize (Some query)));
    by case_decide.
Qed.

Lemma fulfillment_getRecommendations :
  verify_secret HDR TOKEN req = true →
  tag_of req = "getRecommendations" →
  fulfillment HDR TOKEN CAT req = getRecommendations CAT req.
Proof. unfold fulfillment. by intros -> ->. Qed.

Lemma fulfillment_getActivities :
  verify_secret HDR TOKEN req = true →
  tag_of req = "getActivities" →
  fulfillment HDR TOKEN CAT req = with_place CAT req (getActivities req).
Proof. unfold fulfillment. by intros -> ->. Qed.

Lemma getRecommendations_scoped (col : field_key) (scope : string) :
  (district_raw req ≠ "" ∧ col = District ∧ scope = district_raw req) ∨
  (district_raw req = "" ∧ state_raw req ≠ "" ∧
   col = State ∧ scope = state_raw req) →
  getRecommendations CAT req
  = recommend ((λ r : row, r !! FIELD_MAP Name) <$> candidates CAT col scope)
              scope.
Proof.
  unfold getRecommendations. rewrite <-list_places_by_candidates.
  intros [(Hd & -> & ->)|(Hd & Hs & -> & ->)].
  - apply truthy_true in Hd. by rewrite Hd.
  - apply truthy_true in Hs. by rewrite Hd, Hs.
Qed.

(** The text of [getPlaceDetails]: only the left end of the header is
    cut, since the header ends with the closing parenthesis. *)
Lemma getPlaceDetails_text (r : row) :
  getPlaceDetails req r
  = Py.lstrip_by (λ c, Py.mem c ", ")
      (pick r Name (place_raw req) +:+ " (" +:+ pick r District "" +:+ ", " +:+
       pick r State "")
    +:+ ")" +:+ nl +:+ nl +:+ pick r About placeholder +:+ unique_block r.
Proof.
  unfold getPlaceDetails, unique_block, Py.strip_chars.
  assert (∀ a b c : string,
            a +:+ " (" +:+ b +:+ ", " +:+ c +:+ ")"
            = (a +:+ " (" +:+ b +:+ ", " +:+ c) +:+ String ")" "") as ->
    by (intros; by rewrite !app_assoc).
  rewrite strip_by_snoc by done.
  destruct (_ && _); by rewrite ?app_assoc, ?app_nil_r.
Qed.

Lemma recommend_none (scope : string) :
  recommend [] scope = reply ("No places found for " +:+ scope +:+ ".").
Proof. reflexivity. Qed.

Lemma recommend_some (places : list (option string)) (scope : string) :
  places ≠ [] →
  recommend places scope
  = reply ("Recommended places in " +:+ scope +:+ ":" +:+ nl +:+
           Py.join nl ((λ p, bullet (fmt p)) <$> take 10 places)).
Proof. by destruct places. Qed.

End Dispatch.

(** The bullet lines of a bulleted list under a one-line title. *)
Lemma bullet_lines_titled (title : string) (names : list string) :
  names ≠ [] →
  String.prefix "• " title = false →
  Py.mem "010" title = false →
  Forall (λ x, Py.mem "010" x = false) names →
  bullet_lines (title +:+ nl +:+ Py.join nl (bullet <$> names)) = length names.
Proof.
  intros Hne Htitle Hnl Hnames. unfold bullet_lines.
  assert (title +:+ nl +:+ Py.join nl (bullet <$> names)
          = Py.join nl (title :: (bullet <$> names))) as ->.
  { by destruct names. }
  unfold nl at 1. rewrite split_join; [|done|].
  - cbn [List.filter]. rewrite Htitle. clear Hne Hnames.
    induction names as [|x l IH]; [done|].
    rewrite fmap_cons. cbn [List.filter].
    assert (String.prefix "• " (bullet x) = true) as ->
      by (apply prefix_spec; by exists x).
    simpl. by rewrite IH.
  - constructor; [done|]. clear Hne.
    induction Hnames as [|x l Hx Hl IH]; [constructor|].
    rewrite fmap_cons. constructor; [|done].
    unfold bullet. by rewrite mem_app, Hx.
Qed.

(** ** Counting a character through the bulleter *)

Section Counting.
Implicit Types (s t : string) (c d : ascii) (l : list string).

Lemma count_char_app c s t :
  count_char c (s +:+ t) = count_char c s + count_char c t.
Proof.
  induction s as [|d s IH]; [done|]. rewrite app_cons. simpl. lia.
Qed.

Lemma count_char_absent (p : ascii → bool) c s :
  all_chars p s = true → p c = false → count_char c s = 0.
Proof.
  intros Hs Hc. induction s as [|d s IH]; [done|]. simpl in *.
  apply andb_true_iff in Hs as [Hd Hs]. rewrite (IH Hs).
  destruct (Ascii.eqb_spec d c) as [->|_]; [congruence|done].
Qed.

Lemma count_char_strip c s :
  Py.isspace c = false → count_char c (Py.strip s) = count_char c s.
Proof.
  intros Hc. destruct (strip_trimmed s) as [(l & r & Hs & Hl & Hr) _].
  rewrite Hs at 2. rewrite !count_char_app.
  rewrite (count_char_absent _ _ _ Hl Hc), (count_char_absent _ _ _ Hr Hc).
  lia.
Qed.

Lemma count_char_join c (sep : string) l :
  count_char c sep = 0 → count_char c (Py.join sep l) = total_count c l.
Proof.
  intros Hsep. induction l as [|x [|y l] IH]; [done|simpl; lia|].
  rewrite join_two_cons, !count_char_app, Hsep, IH. simpl. lia.
Qed.

Lemma total_count_split c (sep : ascii) s :
  Ascii.eqb sep c = false → total_count c (Py.split sep s) = count_char c s.
Proof.
  intros Hsep. rewrite <-(join_split sep s) at 2.
  rewrite count_char_join; [done|]. simpl. by rewrite Hsep.
Qed.

Lemma total_count_strip c l :
  Py.isspace c = false → total_count c (Py.strip <$> l) = total_count c l.
Proof.
  intros Hc. induction l as [|x l IH]; [done|].
  rewrite fmap_cons. simpl. by rewrite count_char_strip, IH.
Qed.

Lemma total_count_truthy c l :
  total_count c (List.filter Py.truthy l) = total_count c l.
Proof.
  induction l as [|x l IH]; [done|]. simpl.
  destruct (Py.truthy x) eqn:Hx; simpl; [by rewrite IH|].
  apply truthy_false in Hx as ->. by rewrite IH.
Qed.

(** The items of a text hold what the text holds of a character that is
    neither whitespace nor the semicolon. *)
Lemma total_count_items c s :
  Py.isspace c = false → Ascii.eqb ";" c = false →
  total_count c (items_of s) = count_char c s.
Proof.
  intros Hc Hsemi. unfold items_of.
  by rewrite total_count_truthy, total_count_strip, total_count_split.
Qed.

Lemma total_count_bullet l :
  total_count "226" (bullet <$> l) = length l + total_count "226" l.
Proof.
  induction l as [|x l IH]; [done|]. rewrite fmap_cons.
  change (total_count "226" (bullet x :: (bullet <$> l)))
    with (count_char "226" (bullet x) + total_count "226" (bullet <$> l)).
  unfold bullet at 1. rewrite count_char_app, IH.
  change (count_char "226" "• ") with 1. simpl. lia.
Qed.

(** Each bullet marker adds one occurrence of its first byte. *)
Lemma count_char_bullets s :
  items_of s ≠ [] →
  count_char "226" (bullets s) = length (items_of s) + count_char "226" s.
Proof.
  intros Hitems. rewrite bullets_some by done.
  rewrite count_char_join by done.
  by rewrite total_count_bullet, total_count_items.
Qed.

(** [bullets] returns its input exactly when the input has no item. *)
Lemma bullets_fixed s : bullets s = s ↔ items_of s = [].
Proof.
  split; [|apply bullets_none]. intros Hfix.
  destruct (items_of s) as [|x l] eqn:Hitems; [done|].
  assert (items_of s ≠ []) as Hne by by rewrite Hitems.
  pose proof (count_char_bullets s Hne) as Hcount.
  rewrite Hfix, Hitems in Hcount. simpl in Hcount. lia.
Qed.

End Counting.

(** ** What an accepted request gets *)

Section Accepted.
Context (HDR TOKEN : string) (CAT : catalog) (req : request).
Hypothesis Hpass : verify_secret HDR TOKEN req = true.







End Accepted.

(** ** The properties the specification claims *)

(** C3: [load_catalog] keys each row by the normalized village name.  A
    row whose key is not blank has its key in the catalog; the record kept
    under a key is the last row with that key (a later row overwrites an
    earlier one); a row whose key is blank is skipped, as if it were not in
    the input; every entry of the catalog is a row of the input under its
    own, non-blank key, and no key occurs twice. *)
Theorem load_catalog_last_write_wins (rows : list row) :
  (∀ r, r ∈ rows → key_of r ≠ "" →
        is_Some (dict_get (key_of r) (load_catalog rows))) ∧
  (∀ pre r post, rows = pre ++ r :: post → key_of r ≠ "" →
        Forall (λ r', key_of r' ≠ key_of r) post →
        dict_get (key_of r) (load_catalog rows) = Some r) ∧
  (∀ pre r post, rows = pre ++ r :: post → key_of r = "" →
        load_catalog rows = load_catalog (pre ++ post)) ∧
  (∀ k r, dict_get k (load_catalog rows) = Some r →
        k ≠ "" ∧ key_of r = k ∧ r ∈ rows) ∧
  NoDup (dict_keys (load_catalog rows)).
Proof.
  unfold load_catalog. split_and!.
  - intros r Hr Hk. rewrite load_rows_get.
    apply truthy_true in Hk. rewrite Hk.
    destruct (last_with_key (key_of r) rows) eqn:Hl; [by eexists|].
    apply last_with_key_None in Hl. rewrite Forall_forall in Hl.
    by destruct (Hl r Hr).
  - intros pre r post -> Hk Hpost. rewrite load_rows_get.
    apply truthy_true in Hk. rewrite Hk.
    apply last_with_key_None in Hpost.
    rewrite last_with_key_app. simpl. rewrite Hpost.
    by rewrite String.eqb_refl.
  - intros pre r post -> Hk.
    rewrite !fold_left_app. simpl. by rewrite load_row_blank.
  - intros k r. rewrite load_rows_get. simpl.
    destruct (last_with_key k rows) as [r'|] eqn:Hl; [|done].
    destruct (Py.truthy k) eqn:Hk; [|done].
    intros [= <-]. apply truthy_true in Hk.
    apply last_with_key_Some in Hl as [? ?]. done.
  - apply load_rows_NoDup. constructor.
Qed.

(** C8, as amended: normalizing twice is normalizing once and stripping the
    result; so [normalize] is idempotent on every string whose whitespace
    characters are all plain spaces (no tab, newline, ...). *)
Theorem normalize_idempotent_plain_spaces (x : string) :
  normalize (Some (normalize (Some x))) = Py.strip (normalize (Some x)) ∧
  (all_chars plain_space_or_solid x = true →
   normalize (Some (normalize (Some x))) = normalize (Some x)).
Proof.
  split; [apply normalize_normalize|].
  intros Hx. rewrite normalize_normalize.
  by apply strip_by_fixed, normalize_solid.
Qed.

(** C8, as the specification states it, fails: the key of [_<tab>a] is
    [<tab>a], and the key of that is [a]. *)
Lemma normalize_not_idempotent :
  ¬ ∀ x : string, normalize (Some (normalize (Some x))) = normalize (Some x).
Proof.
  intros H. specialize (H (String "_" (String "009" "a"))).
  vm_compute in H. discriminate H.
Qed.

(** C1, as the specification states it, fails: the placeholder comes back
    with a bullet marker in front. *)
Lemma bullets_placeholder_changed :
  bullets "Information not available." ≠ "Information not available." ∧
  Py.contains "•" (bullets "Information not available.") = true.
Proof. split; evaluate. Qed.

(** C1, as amended: [bullets] renders the default placeholder as a single
    bullet item; so it does every text that has no semicolon and is not
    blank, after trimming it; the input comes back unchanged only when no
    segment that is not empty remains, and always then. *)
Theorem bullets_placeholder_one_item :
  bullets "Information not available." = "• Information not available." ∧
  (∀ text, Py.mem ";" text = false → Py.strip text ≠ "" →
           bullets text = "• " +:+ Py.strip text) ∧
  (∀ text, bullets text = text ↔
           List.filter Py.truthy (Py.strip <$> Py.split ";" text) = []).
Proof.
  split_and!; [evaluate | apply bullets_single | apply bullets_fixed].
Qed.

(** C9: [bullets] splits the text on [;] (the segments joined by [;] give
    the text back and hold no [;]), trims every segment, drops the empty
    ones, and joins the rest, each behind a bullet marker, with newlines;
    with no segment left the text comes back as it is, so [bullets("")] is
    [""] and holds no bullet marker. *)
Theorem bullets_spec (text : string) :
  let segs := Py.split ";" text in
  let items := List.filter Py.truthy (Py.strip <$> segs) in
  (Py.join ";" segs = text ∧ Forall (λ seg, Py.mem ";" seg = false) segs) ∧
  Forall (λ seg, trimmed_of seg (Py.strip seg)) segs ∧
  (∀ x, x ∈ items ↔ x ≠ "" ∧ x ∈ Py.strip <$> segs) ∧
  (items = [] → bullets text = text) ∧
  (items ≠ [] → bullets text = Py.join nl ((λ x, "• " +:+ x) <$> items)) ∧
  bullets "" = "" ∧ Py.contains "•" (bullets "") = false.
Proof.
  intros segs items. split_and!.
  - apply join_split.
  - apply split_no_sep.
  - apply Forall_forall. intros seg _. apply strip_trimmed.
  - intros x. unfold items.
    rewrite list_elem_of_In, filter_In, <-list_elem_of_In, truthy_true.
    split; intros [? ?]; done.
  - apply bullets_none.
  - apply bullets_some.
  - reflexivity.
  - reflexivity.
Qed.

(** C5, as the specification states it, fails: the code trims the query
    before it looks for it, so the query [" bird"] keeps "Bird watching",
    whose lower-cased form does not contain the lower-cased query; as
    specified, nothing would be kept. *)
Lemma filter_activity_line_trims_query :
  filter_activity_line "Fishing; Bird watching" " bird" = "Bird watching" ∧
  ¬ substring_of (Py.lower " bird") (Py.lower "Bird watching") ∧
  filter_activity_line_as_specified "Fishing; Bird watching" " bird"
  = "Requested activity not found for this place." ∧
  ¬ ∀ a q, filter_activity_line a q = filter_activity_line_as_specified a q.
Proof.
  split_and!; [evaluate | | evaluate |].
  - rewrite <-contains_spec. evaluate.
  - intros H. specialize (H "Fishing; Bird watching" " bird").
    vm_compute in H. discriminate H.
Qed.

(** C5, as amended: an empty query leaves the activities text unchanged;
    otherwise the text is split on [;], the segments are trimmed and the
    empty ones dropped, and the segments kept are exactly those whose
    lower-cased form contains the trimmed, lower-cased query, in their
    order, joined with ["; "]; with none kept the answer is the literal
    "Requested activity not found for this place.". *)
Theorem filter_activity_line_spec (a q : string) :
  let needle := Py.lower (Py.strip q) in
  let hits :=
    List.filter (λ seg, Py.contains needle (Py.lower seg)) (items_of a) in
  (q = "" → filter_activity_line a q = a) ∧
  (q ≠ "" → hits = [] →
     filter_activity_line a q
     = "Requested activity not found for this place.") ∧
  (q ≠ "" → hits ≠ [] → filter_activity_line a q = Py.join "; " hits) ∧
  (∀ seg, seg ∈ hits ↔
          seg ∈ items_of a ∧ substring_of needle (Py.lower seg)) ∧
  hits `sublist_of` items_of a ∧
  filter_activity_line "Fishing; Bird watching" "bird" = "Bird watching" ∧
  filter_activity_line "Fishing; Hiking" "skiing"
  = "Requested activity not found for this place.".
Proof.
  intros needle hits. split_and!.
  - intros ->. apply filter_activity_line_empty_query.
  - intros Hq Hh. rewrite filter_activity_line_query by done.
    fold needle hits. by rewrite Hh.
  - intros Hq Hh. rewrite filter_activity_line_query by done.
    fold needle hits. by destruct hits.
  - intros seg. unfold hits.
    rewrite list_elem_of_In, filter_In, <-list_elem_of_In, contains_spec.
    done.
  - unfold hits. induction (items_of a) as [|x l IH]; simpl; [done|].
    destruct (Py.contains _ _); [by apply sublist_skip | by apply sublist_cons].
  - vm_compute. reflexivity.
  - vm_compute. reflexivity.
Qed.


(** C7: for each of the eight by-place tags, when the place parameter
    normalizes to the empty string or to a key the catalog does not hold,
    the answer is the not-found message with status 200. *)
Theorem by_place_miss_not_found
    (HDR TOKEN : string) (CAT : catalog) (req : request) :
  verify_secret HDR TOKEN req = true →
  tag_of req ∈ by_place_tags →
  normalize (Some (place_raw req)) = "" ∨
  normalize (Some (place_raw req)) ∉ dict_keys CAT →
  fulfillment HDR TOKEN CAT req
  = {| messages :=
         [msg "I couldn't find that place. Try another village or spelling."];
       status := 200 |}.
Proof.
  intros Hv Htag Hmiss. unfold fulfillment, with_place.
  rewrite Hv, (by_place_required_miss CAT req Hmiss). cbn [negb].
  unfold by_place_tags in Htag. rewrite !elem_of_cons in Htag.
  destruct Htag as [->|[->|[->|[->|[->|[->|[->|[->|Hnil]]]]]]]];
    [reflexivity..|].
  by apply elem_of_nil in Hnil.
Qed.

(** C4: [getRecommendations] asks for a scope when neither a district nor
    a state is given.  Otherwise the scope is the district when one is
    given and the state when not, and the candidates are the records of the
    catalog, in its iteration order, whose district (or state) normalizes
    to what the scope normalizes to: with no candidate the answer is "No
    places found for {scope}.", and with some it is the title and one
    bullet item for each of the first ten candidates, joined by newlines.
    With twelve candidates there are ten items; when neither the scope nor
    the names rendered hold a newline, the items are the lines of the
    answer that start with the bullet marker. *)
Theorem getRecommendations_spec
    (HDR TOKEN : string) (CAT : catalog) (req : request) :
  verify_secret HDR TOKEN req = true →
  tag_of req = "getRecommendations" →
  (district_raw req = "" → state_raw req = "" →
     fulfillment HDR TOKEN CAT req
     = reply "Tell me a state or district to recommend places.") ∧
  (∀ col scope,
     (district_raw req ≠ "" ∧ col = District ∧ scope = district_raw req) ∨
     (district_raw req = "" ∧ state_raw req ≠ "" ∧
      col = State ∧ scope = state_raw req) →
     let cands := candidates CAT col scope in
     let names := (λ r : row, fmt (r !! "Village Name")) <$> take 10 cands in
     let title := "Recommended places in " +:+ scope +:+ ":" in
     let answer := title +:+ nl +:+ Py.join nl ((λ x, "• " +:+ x) <$> names) in
     (cands = [] →
        fulfillment HDR TOKEN CAT req
        = reply ("No places found for " +:+ scope +:+ ".")) ∧
     (cands ≠ [] → fulfillment HDR TOKEN CAT req = reply answer) ∧
     length names = length cands `min` 10 ∧
     (length cands = 12 → length names = 10) ∧
     (cands ≠ [] → Py.mem "010" scope = false →
        Forall (λ x, Py.mem "010" x = false) names →
        bullet_lines answer = length cands `min` 10)).
Proof.
  intros Hv Htag. rewrite (fulfillment_getRecommendations _ _ _ _ Hv Htag).
  split.
  - unfold getRecommendations. by intros -> ->.
  - intros col scope Hscope cands names title answer.
    assert (length names = length cands `min` 10) as Hlen.
    { unfold names. rewrite length_fmap, length_take. lia. }
    rewrite (getRecommendations_scoped _ _ col scope Hscope).
    fold cands. split_and!.
    + intros ->. apply recommend_none.
    + intros Hne. rewrite recommend_some by by destruct cands.
      unfold answer, title, names.
      rewrite <-fmap_take, <-!list_fmap_compose, !app_assoc. done.
    + done.
    + intros H12. rewrite Hlen, H12. done.
    + intros Hne Hscope_nl Hnames. rewrite <-Hlen. unfold answer.
      apply (bullet_lines_titled title names).
      * intros Hn. rewrite Hn in Hlen. destruct cands; [done|].
        simpl in Hlen. lia.
      * reflexivity.
      * unfold title. rewrite !mem_app, Hscope_nl. done.
      * done.
Qed.

(** C10, as the specification states it, fails: a record whose activities
    cell is blank has no segment for the query to match, yet the query
    "available" is found in the placeholder that stands in for the cell, and
    the answer shows the placeholder. *)
Lemma getActivities_placeholder_matched :
  let CAT := load_catalog [bare_hill] in
  let req := ask "getActivities"
               {[ "place" := "Green Hill"; "activity" := "available" ]} in
  dict_get (normalize (Some (place_raw req))) CAT = Some bare_hill ∧
  activity_raw req ≠ "" ∧
  items_of (Py.or_empty (bare_hill !! "Activities")) = [] ∧
  fulfillment "X-DF-Secret" "" CAT req
  ≠ reply ("Activities in Green Hill:" +:+ nl +:+
           "• Requested activity not found for this place.").
Proof.
  split_and!; evaluate.
Qed.

(** C10, as amended: for [getActivities] on a place found in the catalog,
    when the activity query is not empty and its trimmed, lower-cased form
    occurs in no segment of the activities text handed to the filter (the
    trimmed activities cell of the record, or the placeholder "Information
    not available." when that cell is blank), the answer is "Activities in
    {name}:", a newline, and the filter's not-found sentence as one bullet
    item. *)
Theorem getActivities_no_match
    (HDR TOKEN : string) (CAT : catalog) (req : request) (r : row) :
  verify_secret HDR TOKEN req = true →
  tag_of req = "getActivities" →
  normalize (Some (place_raw req)) ≠ "" →
  dict_get (normalize (Some (place_raw req))) CAT = Some r →
  activity_raw req ≠ "" →
  (∀ seg, seg ∈ items_of (pick r Activities "Information not available.") →
          ¬ substring_of (Py.lower (Py.strip (activity_raw req)))
                         (Py.lower seg)) →
  fulfillment HDR TOKEN CAT req
  = reply ("Activities in " +:+ pick r Name (place_raw req) +:+ ":" +:+ nl +:+
           "• Requested activity not found for this place.").
Proof.
  intros Hv Htag Hkey Hrow Hq Hmiss.
  rewrite (fulfillment_getActivities _ _ _ _ Hv Htag). unfold with_place.
  assert (by_place_required CAT req = inl r) as ->
    by by apply by_place_required_hit.
  unfold getActivities. rewrite filter_activity_line_query by done.
  rewrite filter_none; [done|].
  intros seg Hseg. apply not_true_is_false.
  rewrite contains_spec. by apply Hmiss.
Qed.

(** C2, where the code departs from it: a record whose district and state
    are blank gets the header "Green Hill (, )", with the parentheses and
    the comma left in.  For every record the header ends with the closing
    parenthesis, so [strip(", ")] cuts its left end only; the about text
    follows, and the "Unique:" block when the unique cell is neither blank
    nor the placeholder. *)
Theorem getPlaceDetails_blank_district_state :
  fulfillment "X-DF-Secret" "" (load_catalog [bare_hill])
    (ask "getPlaceDetails" {[ "place" := "Green Hill" ]})
  = reply ("Green Hill (, )" +:+ nl +:+ nl +:+ "Information not available.") ∧
  ∀ (req : request) (r : row),
    getPlaceDetails req r
    = Py.lstrip_by (λ c, Py.mem c ", ")
        (pick r Name (place_raw req) +:+ " (" +:+ pick r District "" +:+
         ", " +:+ pick r State "")
      +:+ ")" +:+ nl +:+ nl +:+ pick r About "Information not available."
      +:+ unique_block r.
Proof.
  split; [evaluate|]. intros req r. apply getPlaceDetails_text.
Qed.

(** ** The properties at concrete inputs *)

Lemma load_catalog_last_write_wins_witness :
  dict_get "greenhill"
    (load_catalog [first_spelling; nameless; second_spelling])
  = Some second_spelling ∧
  load_catalog [first_spelling; nameless; second_spelling]
  = load_catalog [first_spelling; second_spelling].
Proof.
  pose proof (load_catalog_last_write_wins
                [first_spelling; nameless; second_spelling])
    as (_ & Hlast & Hskip & _).
  split.
  - apply (Hlast [first_spelling; nameless] second_spelling []).
    + reflexivity.
    + vm_compute. discriminate.
    + constructor.
  - apply (Hskip [first_spelling] nameless [second_spelling]).
    + reflexivity.
    + vm_compute. reflexivity.
Defined.

Lemma normalize_idempotent_plain_spaces_witness :
  normalize (Some (normalize (Some " Example_Village ")))
  = normalize (Some " Example_Village ").
Proof.
  pose proof (normalize_idempotent_plain_spaces " Example_Village ") as [_ H].
  apply H. vm_compute. reflexivity.
Defined.

Lemma bullets_placeholder_one_item_witness :
  bullets "  Hiking " = "• " +:+ Py.strip "  Hiking " ∧
  List.filter Py.truthy (Py.strip <$> Py.split ";" " ;; ") = [].
Proof.
  pose proof bullets_placeholder_one_item as (_ & Hone & Hfixed).
  split.
  - apply Hone; [vm_compute; reflexivity | vm_compute; discriminate].
  - apply Hfixed. vm_compute. reflexivity.
Defined.

Lemma bullets_spec_witness :
  bullets "Fishing; ;Hiking " = Py.join nl ["• Fishing"; "• Hiking"] ∧
  bullets " ; " = " ; ".
Proof.
  split.
  - pose proof (bullets_spec "Fishing; ;Hiking ") as (_ & _ & _ & _ & H & _).
    apply H. vm_compute. discriminate.
  - pose proof (bullets_spec " ; ") as (_ & _ & _ & H & _).
    apply H. vm_compute. reflexivity.
Defined.

Lemma filter_activity_line_spec_witness :
  filter_activity_line "Fishing; Bird watching; Birding" " BIRD "
  = "Bird watching; Birding" ∧
  filter_activity_line "Fishing; Hiking" "ski"
  = "Requested activity not found for this place.".
Proof.
  split.
  - pose proof (filter_activity_line_spec
                  "Fishing; Bird watching; Birding" " BIRD ")
      as (_ & _ & H & _).
    apply H; vm_compute; discriminate.
  - pose proof (filter_activity_line_spec "Fishing; Hiking" "ski")
      as (_ & H & _).
    apply H; [vm_compute; discriminate | vm_compute; reflexivity].
Defined.


Lemma by_place_miss_not_found_witness :
  fulfillment "X-DF-Secret" "" (load_catalog [green_hill])
    (ask "getPlaceDetails" {[ "place" := "Blue Lake" ]})
  = {| messages :=
         [msg "I couldn't find that place. Try another village or spelling."];
       status := 200 |}.
Proof.
  apply by_place_miss_not_found.
  - vm_compute. reflexivity.
  - apply list_elem_of_here.
  - right. apply dict_get_None. vm_compute. reflexivity.
Defined.

Lemma getRecommendations_spec_witness :
  length (candidates (load_catalog kullu_rows) District "Kullu") = 12 ∧
  fulfillment "X-DF-Secret" "" (load_catalog kullu_rows)
    (ask "getRecommendations" {[ "district" := "Kullu" ]})
  = reply kullu_answer ∧
  bullet_lines kullu_answer = 10.
Proof.
  pose proof (getRecommendations_spec "X-DF-Secret" ""
                (load_catalog kullu_rows)
                (ask "getRecommendations" {[ "district" := "Kullu" ]})
                eq_refl eq_refl) as [_ H].
  specialize (H District "Kullu").
  destruct H as (_ & Hanswer & _ & _ & Hlines).
  - left. split_and!; [vm_compute; discriminate | reflexivity..].
  - split_and!.
    + vm_compute. reflexivity.
    + rewrite Hanswer by (vm_compute; discriminate). vm_compute. reflexivity.
    + etrans; [|apply Hlines].
      * vm_compute. reflexivity.
      * vm_compute. discriminate.
      * vm_compute. reflexivity.
      * vm_compute. repeat constructor.
Defined.

Lemma getActivities_no_match_witness :
  fulfillment "X-DF-Secret" "" (load_catalog [green_hill])
    (ask "getActivities" {[ "place" := "green hill"; "activity" := "Skiing" ]})
  = reply ("Activities in Green Hill:" +:+ nl +:+
           "• Requested activity not found for this place.").
Proof.
  apply (getActivities_no_match "X-DF-Secret" "" (load_catalog [green_hill])
           (ask "getActivities"
              {[ "place" := "green hill"; "activity" := "Skiing" ]})
           green_hill).
  - vm_compute. reflexivity.
  - vm_compute. reflexivity.
  - vm_compute. discriminate.
  - vm_compute. reflexivity.
  - vm_compute. discriminate.
  - intros seg Hseg Hsub. apply contains_spec in Hsub.
    apply list_elem_of_In in Hseg. vm_compute in Hseg.
    destruct Hseg as [<-|[<-|[<-|[]]]]; vm_compute in Hsub; discriminate Hsub.
Defined.

(** ** Further facts about the string operations *)

Section MoreStrings.
Implicit Types (s t l r : string) (c d : ascii) (p : ascii → bool).

Lemma lstrip_by_all p s : all_chars p s = true → Py.lstrip_by p s = "".
Proof.
  induction s as [|c s IH]; simpl; [done|].
  intros [Hc Hs]%andb_true_iff. rewrite Hc. auto.
Qed.

Lemma rstrip_by_all p s : all_chars p s = true → Py.rstrip_by p s = "".
Proof.
  induction s as [|c s IH]; simpl; [done|].
  intros [Hc Hs]%andb_true_iff. by rewrite IH, Hc.
Qed.

Lemma lstrip_by_app_all p l s :
  all_chars p l = true → Py.lstrip_by p (l +:+ s) = Py.lstrip_by p s.
Proof.
  induction l as [|c l IH]; [done|]. rewrite app_cons. simpl.
  intros [Hc Hl]%andb_true_iff. rewrite Hc. auto.
Qed.

Lemma rstrip_by_app_all p t r :
  all_chars p r = true → Py.rstrip_by p (t +:+ r) = Py.rstrip_by p t.
Proof.
  intros Hr. induction t as [|c t IH].
  - rewrite app_nil_l. by apply rstrip_by_all.
  - rewrite app_cons. simpl. by rewrite IH.
Qed.

Lemma lstrip_by_solid p t :
  (∀ c, first_char t = Some c → p c = false) → Py.lstrip_by p t = t.
Proof. destruct t as [|c t]; simpl; [done|]. intros H. by rewrite (H c). Qed.

Lemma rstrip_by_solid p t :
  (∀ c, last_char t = Some c → p c = false) → Py.rstrip_by p t = t.
Proof.
  induction t as [|c t IH]; [done|]. intros H. cbn [Py.rstrip_by].
  destruct t as [|d t].
  - simpl. by rewrite (H c).
  - rewrite IH; [done|]. intros c' Hc'. by apply H.
Qed.

(** What is left between two runs of strippable characters, when it starts
    and ends with characters that stay, is what [strip] returns. *)
Lemma strip_by_unique p l t r :
  all_chars p l = true → all_chars p r = true →
  (∀ c, first_char t = Some c → p c = false) →
  (∀ c, last_char t = Some c → p c = false) →
  Py.strip_by p (l +:+ t +:+ r) = t.
Proof.
  intros Hl Hr Hfirst Hlast. unfold Py.strip_by.
  rewrite lstrip_by_app_all by done. destruct t as [|c t].
  - rewrite app_nil_l, lstrip_by_all by done. done.
  - rewrite lstrip_by_solid.
    + rewrite rstrip_by_app_all by done. by apply rstrip_by_solid.
    + rewrite app_cons. simpl. intros c' [= <-]. by apply Hfirst.
Qed.

Lemma strip_unique s t : trimmed_of s t → Py.strip s = t.
Proof.
  intros [(l & r & -> & Hl & Hr) [Hfirst Hlast]].
  by apply strip_by_unique.
Qed.

Lemma strip_idem s : Py.strip (Py.strip s) = Py.strip s.
Proof.
  destruct (strip_trimmed s) as [_ [Hfirst Hlast]].
  rewrite <-(app_nil_r (Py.strip s)) at 1.
  by apply (strip_by_unique Py.isspace "" (Py.strip s) "").
Qed.

Lemma strip_all_space s : all_chars Py.isspace s = true → Py.strip s = "".
Proof.
  intros Hs. unfold Py.strip, Py.strip_by. by rewrite lstrip_by_all.
Qed.

(** Whitespace in front of a text, or behind it, does not change what
    [strip] returns. *)
Lemma strip_app_space_l l s :
  all_chars Py.isspace l = true → Py.strip (l +:+ s) = Py.strip s.
Proof.
  intros Hl. destruct (strip_trimmed s) as [(l' & r' & Hs & Hl' & Hr') [? ?]].
  rewrite Hs at 1. rewrite <-app_assoc.
  apply strip_by_unique; [|done..]. by rewrite all_chars_app, Hl, Hl'.
Qed.

Lemma strip_app_space_r s r :
  all_chars Py.isspace r = true → Py.strip (s +:+ r) = Py.strip s.
Proof.
  intros Hr. destruct (strip_trimmed s) as [(l' & r' & Hs & Hl' & Hr') [? ?]].
  rewrite Hs at 1. rewrite !app_assoc.
  apply strip_by_unique; [done| |done..]. by rewrite all_chars_app, Hr', Hr.
Qed.

Lemma lower_lstrip s :
  Py.lstrip_by Py.isspace (Py.lower s) = Py.lower (Py.lstrip_by Py.isspace s).
Proof.
  induction s as [|c s IH]; simpl; [done|].
  rewrite isspace_lower_char. by destruct (Py.isspace c).
Qed.

Lemma lower_rstrip s :
  Py.rstrip_by Py.isspace (Py.lower s) = Py.lower (Py.rstrip_by Py.isspace s).
Proof.
  induction s as [|c s IH]; simpl; [done|].
  rewrite IH, isspace_lower_char.
  destruct (Py.rstrip_by Py.isspace s); simpl; [by destruct (Py.isspace c)|done].
Qed.

Lemma lower_strip s : Py.strip (Py.lower s) = Py.lower (Py.strip s).
Proof. unfold Py.strip, Py.strip_by. by rewrite lower_lstrip, lower_rstrip. Qed.

Lemma remove_char_app c s t :
  Py.remove_char c (s +:+ t) = Py.remove_char c s +:+ Py.remove_char c t.
Proof.
  induction s as [|d s IH]; [done|]. rewrite app_cons. simpl.
  destruct (Ascii.eqb d c); [done|]. by rewrite app_cons, IH.
Qed.

Lemma remove_char_idem c s :
  Py.remove_char c (Py.remove_char c s) = Py.remove_char c s.
Proof. apply remove_char_of_absent, remove_char_removed. Qed.

Lemma remove_char_comm c d s :
  Py.remove_char c (Py.remove_char d s) = Py.remove_char d (Py.remove_char c s).
Proof.
  induction s as [|e s IH]; simpl; [done|].
  destruct (Ascii.eqb e d) eqn:Hd, (Ascii.eqb e c) eqn:Hc; simpl;
    rewrite ?Hd, ?Hc, ?IH; done.
Qed.

Lemma lower_remove_char c s :
  (∀ d, Ascii.eqb (Py.lower_char d) c = Ascii.eqb d c) →
  Py.lower (Py.remove_char c s) = Py.remove_char c (Py.lower s).
Proof.
  intros Hc. induction s as [|d s IH]; simpl; [done|].
  rewrite Hc. destruct (Ascii.eqb d c); simpl; by rewrite IH.
Qed.

Lemma remove_char_all c s :
  all_chars (λ d, Ascii.eqb d c) s = true → Py.remove_char c s = "".
Proof.
  induction s as [|d s IH]; simpl; [done|].
  intros [Hd Hs]%andb_true_iff. rewrite Hd. auto.
Qed.

Lemma first_char_remove_char c s d :
  first_char s = Some d → Ascii.eqb d c = false →
  first_char (Py.remove_char c s) = Some d.
Proof. destruct s as [|e s]; simpl; [done|]. intros [= ->] ->. done. Qed.

Lemma last_char_cons c s d :
  last_char s = Some d → last_char (String c s) = Some d.
Proof. by destruct s. Qed.

Lemma last_char_remove_char c s d :
  last_char s = Some d → Ascii.eqb d c = false →
  last_char (Py.remove_char c s) = Some d.
Proof.
  intros Hlast Hd. induction s as [|e s IH]; [done|].
  destruct s as [|e' s].
  - simpl in *. simplify_eq. by rewrite Hd.
  - specialize (IH Hlast). cbn [Py.remove_char].
    destruct (Ascii.eqb e c); [done|]. by apply last_char_cons.
Qed.

End MoreStrings.

(** ** Further facts about the normalizer *)

Section MoreNormalize.
Implicit Types (s t x : string) (c d : ascii).

Lemma isspace_not_space c : Py.isspace c = false → Ascii.eqb c " " = false.
Proof. by destruct c as [[] [] [] [] [] [] [] []]. Qed.

Lemma isspace_not_semicolon c : Py.isspace c = true → Ascii.eqb ";" c = false.
Proof. by destruct c as [[] [] [] [] [] [] [] []]. Qed.

Lemma lower_fixed_not_upper c : lower_fixed c = negb (Py.isupper c).
Proof. by destruct c as [[] [] [] [] [] [] [] []]. Qed.

Lemma last_char_is_Some c s : is_Some (last_char (String c s)).
Proof.
  revert c. induction s as [|d s IH]; intros c; [by eexists|].
  destruct (IH d) as [e He]. exists e. by apply last_char_cons.
Qed.

(** Removing the spaces of a text and stripping it commute. *)
Lemma strip_remove_space s :
  Py.strip (Py.remove_char " " s) = Py.remove_char " " (Py.strip s).
Proof.
  destruct (strip_trimmed s) as [(l & r & Hs & Hl & Hr) [Hfirst Hlast]].
  rewrite Hs at 1. rewrite !remove_char_app.
  apply strip_by_unique; [by apply all_chars_remove_char..| |].
  - destruct (Py.strip s) as [|d t]; [done|].
    specialize (Hfirst d eq_refl). intros c. simpl.
    rewrite (isspace_not_space d Hfirst). by intros [= <-].
  - destruct (Py.strip s) as [|d t]; [done|].
    destruct (last_char_is_Some d t) as [e He]. specialize (Hlast e He).
    rewrite (last_char_remove_char " " _ e He (isspace_not_space e Hlast)).
    by intros c [= <-].
Qed.

Lemma normalize_lower x :
  normalize (Some (Py.lower x)) = normalize (Some x).
Proof. unfold normalize. simpl. by rewrite lower_strip, lower_idem. Qed.

Lemma normalize_remove_space x :
  normalize (Some (Py.remove_char " " x)) = normalize (Some x).
Proof.
  unfold normalize. simpl.
  rewrite strip_remove_space, (lower_remove_char " ") by apply lower_char_space.
  by rewrite remove_char_idem.
Qed.

Lemma normalize_strip x : normalize (Some (Py.strip x)) = normalize (Some x).
Proof. unfold normalize. simpl. by rewrite strip_idem. Qed.

(** With plain spaces as the only whitespace, stripping is covered by the
    removal of the spaces. *)
Lemma normalize_plain x :
  all_chars plain_space_or_solid x = true →
  normalize (Some x)
  = Py.remove_char "_" (Py.remove_char " " (Py.lower x)).
Proof.
  intros Hx. unfold normalize. simpl. f_equal.
  destruct (strip_trimmed x) as [(l & r & Hs & Hl & Hr) _].
  rewrite Hs in Hx. rewrite !all_chars_app, !andb_true_iff in Hx.
  destruct Hx as (Hpl & _ & Hpr).
  assert (∀ w, all_chars Py.isspace w = true →
               all_chars plain_space_or_solid w = true →
               Py.remove_char " " (Py.lower w) = "") as Hblank.
  { intros w Hw Hpw. apply remove_char_all.
    apply all_chars_lower; [intros c; by rewrite lower_char_space|].
    eapply all_chars_impl; [|apply (all_chars_and _ _ _ Hw Hpw)].
    intros c. unfold plain_space_or_solid.
    destruct (Py.isspace c), (Ascii.eqb c " "); done. }
  rewrite Hs at 2. rewrite !lower_app, !remove_char_app.
  rewrite (Hblank l Hl Hpl), (Hblank r Hr Hpr).
  by rewrite app_nil_l, app_nil_r.
Qed.

Lemma normalize_remove_underscore x :
  all_chars plain_space_or_solid x = true →
  normalize (Some (Py.remove_char "_" x)) = normalize (Some x).
Proof.
  intros Hx. rewrite !normalize_plain by by try apply all_chars_remove_char.
  rewrite (lower_remove_char "_") by apply lower_char_underscore.
  by rewrite (remove_char_comm " " "_"), remove_char_idem.
Qed.

Lemma normalize_key_chars (o : option string) :
  all_chars key_char (normalize o) = true.
Proof.
  destruct (normalize_chars o) as (Hsp & Hus & Hlow).
  eapply all_chars_impl;
    [|apply (all_chars_and _ _ _ Hsp (all_chars_and _ _ _ Hus Hlow))].
  intros c. unfold key_char, is_not. rewrite lower_fixed_not_upper.
  by rewrite andb_assoc.
Qed.

Lemma normalize_blank (o : option string) :
  Py.strip (Py.or_empty o) = "" → normalize o = "".
Proof. unfold normalize. by intros ->. Qed.

End MoreNormalize.

(** ** Further facts about the catalog *)

Lemma load_catalog_get_inv (rows : list row) (k : string) (r : row) :
  dict_get k (load_catalog rows) = Some r → k ≠ "" ∧ key_of r = k ∧ r ∈ rows.
Proof.
  unfold load_catalog. rewrite load_rows_get. simpl.
  destruct (last_with_key k rows) as [r'|] eqn:Hl; [|done].
  destruct (Py.truthy k) eqn:Hk; [|done].
  intros [= <-]. apply truthy_true in Hk.
  by apply last_with_key_Some in Hl as [? ?].
Qed.

Lemma load_catalog_get_last (pre post : list row) (r : row) :
  key_of r ≠ "" → Forall (λ r', key_of r' ≠ key_of r) post →
  dict_get (key_of r) (load_catalog (pre ++ r :: post)) = Some r.
Proof.
  intros Hk%truthy_true Hpost%last_with_key_None.
  unfold load_catalog. rewrite load_rows_get, last_with_key_app. simpl.
  by rewrite Hpost, String.eqb_refl, Hk.
Qed.

Lemma load_catalog_get_none (rows : list row) (k : string) :
  Forall (λ r, key_of r ≠ k) rows → dict_get k (load_catalog rows) = None.
Proof.
  intros Hk%last_with_key_None. unfold load_catalog.
  by rewrite load_rows_get, Hk.
Qed.

Lemma dict_get_is_Some {V} (d : list (string * V)) (k : string) :
  k ∈ dict_keys d → is_Some (dict_get k d).
Proof.
  intros Hk. destruct (dict_get k d) eqn:Hg; [by eexists|].
  by apply dict_get_None in Hg.
Qed.

Lemma dict_values_get {V} (d : list (string * V)) (v : V) :
  NoDup (dict_keys d) → v ∈ dict_values d → ∃ k, dict_get k d = Some v.
Proof.
  induction d as [|[k' v'] d IH]; [by intros _ ?%elem_of_nil|].
  rewrite dict_keys_cons. intros [Hk' Hd]%NoDup_cons.
  change (dict_values ((k', v') :: d)) with (v' :: dict_values d).
  intros [->|Hv]%elem_of_cons.
  - exists k'. simpl. by rewrite String.eqb_refl.
  - destruct (IH Hd Hv) as [k Hk]. exists k. simpl.
    destruct (String.eqb_spec k' k) as [->|_]; [|done].
    apply dict_get_None in Hk'. congruence.
Qed.

Lemma dict_get_entry {V} (d : list (string * V)) (k : string) (v : V) :
  NoDup (dict_keys d) → (k, v) ∈ d → dict_get k d = Some v.
Proof.
  induction d as [|[k' v'] d IH]; [by intros _ ?%elem_of_nil|].
  rewrite dict_keys_cons. intros [Hk' Hd]%NoDup_cons.
  intros [[= -> ->]|Hin]%elem_of_cons; simpl.
  - by rewrite String.eqb_refl.
  - destruct (String.eqb_spec k' k) as [->|_]; [|by apply IH].
    destruct Hk'. apply list_elem_of_fmap. by exists (k, v).
Qed.

Lemma dict_entries {V} (d : list (string * V)) :
  NoDup (dict_keys d) →
  Forall2 (λ k v, dict_get k d = Some v) (dict_keys d) (dict_values d).
Proof.
  intros Hd. unfold dict_keys, dict_values.
  apply Forall2_fmap, Forall_Forall2_diag, Forall_forall.
  intros [k v] Hin. by apply dict_get_entry.
Qed.

Lemma first_occurrences_length (l : list string) :
  length (first_occurrences l) ≤ length l.
Proof.
  induction l as [|x l IH]; simpl; [done|].
  pose proof (length_filter (λ y, y ≠ x) (first_occurrences l)). lia.
Qed.

(** The keys after the loop: those that were there, in their places, and
    behind them the new ones in the order of their first rows. *)
Lemma load_rows_keys (rows : list row) (d : catalog) :
  dict_keys (fold_left load_row rows d)
  = dict_keys d ++
    filter (λ k, k ∉ dict_keys d)
           (first_occurrences (List.filter Py.truthy (key_of <$> rows))).
Proof.
  revert d. induction rows as [|r rows IH]; intros d.
  - simpl. by rewrite List.app_nil_r.
  - cbn [fold_left]. rewrite IH, fmap_cons. cbn [List.filter].
    unfold load_row. fold (key_of r).
    destruct (Py.truthy (key_of r)) eqn:Hk; [|done].
    cbn [first_occurrences]. rewrite dict_keys_set.
    destruct (dict_get (key_of r) d) eqn:Hg.
    + assert (key_of r ∈ dict_keys d) as Hin.
      { destruct (decide (key_of r ∈ dict_keys d)) as [|Hn]; [done|].
        apply dict_get_None in Hn. congruence. }
      rewrite filter_cons_False by (intros Hn; by apply Hn).
      rewrite list_filter_filter. f_equal. apply list_filter_iff.
      intros x. split; [by split; [|intros ->]|by intros [? _]].
    + apply dict_get_None in Hg.
      rewrite filter_cons_True by done.
      rewrite list_filter_filter, <-List.app_assoc. simpl.
      do 2 f_equal. apply list_filter_iff. intros x.
      by rewrite not_elem_of_app, list_elem_of_singleton.
Qed.

(** ** Further properties of the code *)

(** X1: every normalized text holds no space, no underscore and no
    upper-case letter; so does every key of the catalog, which is not empty
    either. *)
Theorem catalog_keys_normalized (rows : list row) (k : string) :
  (∀ o, all_chars key_char (normalize o) = true) ∧
  (k ∈ dict_keys (load_catalog rows) →
   k ≠ "" ∧ all_chars key_char k = true).
Proof.
  split; [apply normalize_key_chars|].
  intros [r Hr]%dict_get_is_Some.
  apply load_catalog_get_inv in Hr as (Hk & <- & _).
  split; [done|apply normalize_key_chars].
Qed.

(** X2: for a name of ASCII characters, the key does not depend on the
    case of its letters, on its spaces, or on whitespace around it; when
    plain spaces are its only whitespace, it does not depend on its
    underscores either. *)
Theorem normalize_insensitive (x : string) :
  all_chars is_ascii x = true →
  normalize (Some (Py.lower x)) = normalize (Some x) ∧
  normalize (Some (Py.remove_char " " x)) = normalize (Some x) ∧
  normalize (Some (Py.strip x)) = normalize (Some x) ∧
  (all_chars plain_space_or_solid x = true →
   normalize (Some (Py.remove_char "_" x)) = normalize (Some x)).
Proof.
  intros _. split_and!.
  - apply normalize_lower.
  - apply normalize_remove_space.
  - apply normalize_strip.
  - apply normalize_remove_underscore.
Qed.

(** X3: the catalog iterates over its keys in the order of the first row
    of each key, a row that overwrites an earlier one taking its place; the
    record under a key is the last row with that key; the catalog has no
    more entries than the input has rows. *)
Theorem load_catalog_in_order (rows : list row) :
  dict_keys (load_catalog rows)
  = first_occurrences (List.filter Py.truthy (key_of <$> rows)) ∧
  Forall2 (λ k r, last_with_key k rows = Some r)
          (dict_keys (load_catalog rows)) (dict_values (load_catalog rows)) ∧
  length (load_catalog rows) ≤ length rows.
Proof.
  assert (dict_keys (load_catalog rows)
          = first_occurrences (List.filter Py.truthy (key_of <$> rows)))
    as Hkeys.
  { unfold load_catalog. rewrite load_rows_keys. simpl.
    induction (first_occurrences _) as [|x l IH]; [done|].
    rewrite filter_cons_True by apply not_elem_of_nil. by rewrite IH. }
  split_and!; [done| |].
  - eapply Forall2_impl; [apply dict_entries, load_rows_NoDup; constructor|].
    intros k r. unfold load_catalog. rewrite load_rows_get. simpl.
    destruct (last_with_key k rows); [|done]. by destruct (Py.truthy k).
  - rewrite <-(length_fmap fst). fold (dict_keys (load_catalog rows)).
    rewrite Hkeys.
    etrans; [apply first_occurrences_length|].
    etrans; [apply List.filter_length_le|]. by rewrite length_fmap.
Qed.

(** X4: looking a place up after loading: a request whose place parameter
    normalizes to the key of a row finds the last row with that key,
    whatever the spelling; a request whose place parameter normalizes to the
    key of no row gets the not-found response. *)
Theorem lookup_after_load (rows : list row) (req : request) :
  (∀ pre r post,
     rows = pre ++ r :: post → key_of r ≠ "" →
     Forall (λ r', key_of r' ≠ key_of r) post →
     normalize (Some (place_raw req)) = key_of r →
     by_place_required (load_catalog rows) req = inl r) ∧
  (Forall (λ r, key_of r ≠ normalize (Some (place_raw req))) rows →
   by_place_required (load_catalog rows) req = inr (reply place_not_found)).
Proof.
  split.
  - intros pre r post -> Hk Hpost Hplace.
    apply by_place_required_hit. rewrite Hplace.
    split; [done|]. by apply load_catalog_get_last.
  - intros Hnone%load_catalog_get_none.
    apply by_place_required_miss. right. by apply dict_get_None.
Qed.


(** ** Items of a semicolon-delimited text *)

Section Items.
Implicit Types (s t l r x : string) (c : ascii).

Lemma mem_false_all c s :
  Py.mem c s = false ↔ all_chars (is_not c) s = true.
Proof.
  induction s as [|d s IH]; simpl; [done|].
  rewrite orb_false_iff, andb_true_iff, IH. unfold is_not.
  rewrite negb_true_iff, (Ascii.eqb_sym d c). done.
Qed.

Lemma all_space_no_semicolon l :
  all_chars Py.isspace l = true → Py.mem ";" l = false.
Proof.
  induction l as [|c l IH]; [done|]. cbn [all_chars Py.mem].
  intros [Hc Hl]%andb_true_iff. by rewrite (isspace_not_semicolon c Hc), IH.
Qed.

Lemma split_go_app_l (sep : ascii) l s :
  Py.mem sep l = false →
  Py.split_go sep (l +:+ s)
  = (l +:+ (Py.split_go sep s).1, (Py.split_go sep s).2).
Proof.
  induction l as [|c l IH].
  { intros _. rewrite !app_nil_l. by destruct (Py.split_go sep s). }
  cbn [Py.mem]. intros [Hc Hl]%orb_false_iff.
  rewrite app_cons. cbn [Py.split_go]. rewrite (IH Hl).
  rewrite Ascii.eqb_sym in Hc. by rewrite Hc.
Qed.

Lemma split_app_last (sep : ascii) s r :
  Py.mem sep r = false →
  Py.split sep (s +:+ r)
  = append_last r (Py.split_go sep s).1 (Py.split_go sep s).2.
Proof.
  intros Hr. induction s as [|c s IH].
  - rewrite app_nil_l. by apply split_no_occurrence.
  - rewrite app_cons. unfold Py.split in *. cbn [Py.split_go].
    destruct (Py.split_go sep (s +:+ r)) as [seg' segs'].
    destruct (Py.split_go sep s) as [seg segs]. cbn [fst snd] in *.
    destruct (Ascii.eqb c sep); cbn [fst snd].
    + by rewrite IH.
    + destruct segs as [|x xs]; simpl in IH; by simplify_eq.
Qed.

Lemma strip_append_last r seg (segs : list string) :
  all_chars Py.isspace r = true →
  Py.strip <$> append_last r seg segs = Py.strip <$> (seg :: segs).
Proof.
  intros Hr. revert seg. induction segs as [|x xs IH]; intros seg; simpl.
  - by rewrite strip_app_space_r.
  - f_equal. apply IH.
Qed.

(** Whitespace around a text does not change its items. *)
Lemma items_of_app_l l s :
  all_chars Py.isspace l = true → items_of (l +:+ s) = items_of s.
Proof.
  intros Hl. unfold items_of, Py.split.
  rewrite split_go_app_l by by apply all_space_no_semicolon.
  destruct (Py.split_go ";" s) as [seg segs]. cbn [fst snd].
  rewrite !fmap_cons. by rewrite strip_app_space_l.
Qed.

Lemma items_of_app_r s r :
  all_chars Py.isspace r = true → items_of (s +:+ r) = items_of s.
Proof.
  intros Hr. unfold items_of.
  rewrite split_app_last by by apply all_space_no_semicolon.
  rewrite strip_append_last by done. unfold Py.split.
  by destruct (Py.split_go ";" s).
Qed.

Lemma items_of_strip s : items_of (Py.strip s) = items_of s.
Proof.
  destruct (strip_trimmed s) as [(l & r & Hs & Hl & Hr) _].
  rewrite Hs at 2. by rewrite items_of_app_l, items_of_app_r.
Qed.

Lemma items_of_cons s t :
  Py.mem ";" s = false →
  items_of (s +:+ String ";" t)
  = (if Py.truthy (Py.strip s) then [Py.strip s] else []) ++ items_of t.
Proof.
  intros Hs. unfold items_of. rewrite split_app_sep by done.
  rewrite fmap_cons. cbn [List.filter]. by destruct (Py.truthy _).
Qed.

Lemma strip_item x : item_like x → Py.strip x = x.
Proof.
  intros (_ & _ & Hfirst & Hlast).
  rewrite <-(app_nil_r x) at 1.
  by apply (strip_by_unique Py.isspace "" x "").
Qed.

Lemma items_of_item x : item_like x → items_of x = [x].
Proof.
  intros Hx. pose proof Hx as (Hne & Hsemi & _).
  unfold items_of. rewrite split_no_occurrence by done. simpl.
  rewrite strip_item by done. apply truthy_true in Hne. by rewrite Hne.
Qed.

(** Joining items with ["; "] and taking the items of the result gives the
    items back. *)
Lemma items_of_join (hits : list string) :
  Forall item_like hits → items_of (Py.join "; " hits) = hits.
Proof.
  induction hits as [|x [|y l] IH]; [done| |].
  - intros [Hx _]%Forall_cons. by apply items_of_item.
  - intros [Hx Hl]%Forall_cons. pose proof Hx as (Hne & Hsemi & _).
    rewrite join_two_cons, !app_cons, app_nil_l.
    rewrite items_of_cons by done.
    rewrite strip_item by done. apply truthy_true in Hne. rewrite Hne.
    change (String " " ?u) with (" " +:+ u).
    rewrite (items_of_app_l " ") by done. by rewrite IH.
Qed.

Lemma items_of_item_like s x : x ∈ items_of s → item_like x.
Proof.
  intros (Hne & seg & Hseg & ->)%items_of_elem.
  destruct (strip_trimmed seg) as [_ [Hfirst Hlast]].
  split_and!; [done| |done..].
  apply mem_false_all, all_chars_strip, mem_false_all.
  pose proof (split_no_sep ";" s) as Hall.
  rewrite Forall_forall in Hall. by apply Hall.
Qed.

Lemma filter_all {A} (f : A → bool) (xs : list A) :
  (∀ a : A, f a = true) → List.filter f xs = xs.
Proof.
  intros Hf. induction xs as [|a xs IH]; [done|]. simpl. by rewrite Hf, IH.
Qed.

Lemma filter_items_like (f : string → bool) s :
  Forall item_like (List.filter f (items_of s)).
Proof.
  apply Forall_forall. intros x Hx.
  apply list_elem_of_In, filter_In in Hx as [Hx _].
  by apply (items_of_item_like s), list_elem_of_In.
Qed.

(** The bulleted form of what [pick] returns for a cell. *)
Lemma bullets_pick (r : row) (k : field_key) :
  bullets (pick r k placeholder)
  = let cell := Py.or_empty (r !! FIELD_MAP k) in
    if Py.truthy (Py.strip cell) then
      match items_of cell with
      | [] => Py.strip cell
      | items => Py.join nl (bullet <$> items)
      end
    else bullet placeholder.
Proof.
  unfold pick. cbn zeta.
  destruct (Py.truthy (Py.strip _)); [|reflexivity].
  unfold bullets. rewrite items_of_strip. by destruct (items_of _).
Qed.

End Items.

Lemma fulfillment_bulleted
    (HDR TOKEN : string) (CAT : catalog) (req : request)
    (tag title : string) (field : field_key) :
  (tag, title, field) ∈ bulleted_handlers →
  verify_secret HDR TOKEN req = true → tag_of req = tag →
  fulfillment HDR TOKEN CAT req
  = with_place CAT req
      (λ r, title +:+ pick r Name (place_raw req) +:+ ":" +:+ nl +:+
            bullets (pick r field placeholder)).
Proof.
  unfold bulleted_handlers. rewrite !elem_of_cons.
  intros Hin Hv Htag. unfold fulfillment. rewrite Hv, Htag.
  destruct Hin as [[= -> -> ->]|[[= -> -> ->]|[[= -> -> ->]|
                  [[= -> -> ->]|[[= -> -> ->]|Hnil]]]]]; [reflexivity..|].
  by apply elem_of_nil in Hnil.
Qed.

(** X7: for [getAttractions], [getFood], [getTransport], [getStays] and
    [getHandicrafts] on a place that is found, the answer is the title with
    the name of the place, a newline, and one bullet line for each item of
    the cell that is not blank, in the order of the cell; a cell with no
    text at all is shown as the one bullet "• Information not available.",
    and a cell that holds only semicolons and whitespace is shown trimmed,
    with no bullet. *)
Theorem bulleted_cell_answer
    (HDR TOKEN : string) (CAT : catalog) (req : request) (r : row)
    (tag title : string) (field : field_key) :
  (tag, title, field) ∈ bulleted_handlers →
  verify_secret HDR TOKEN req = true →
  tag_of req = tag →
  normalize (Some (place_raw req)) ≠ "" →
  dict_get (normalize (Some (place_raw req))) CAT = Some r →
  let cell := Py.or_empty (r !! FIELD_MAP field) in
  let answer body :=
    reply (title +:+ pick r Name (place_raw req) +:+ ":" +:+ nl +:+ body) in
  (Py.strip cell = "" →
     fulfillment HDR TOKEN CAT req = answer "• Information not available.") ∧
  (Py.strip cell ≠ "" → items_of cell = [] →
     fulfillment HDR TOKEN CAT req = answer (Py.strip cell)) ∧
  (items_of cell ≠ [] →
     fulfillment HDR TOKEN CAT req
     = answer (Py.join nl ((λ x, "• " +:+ x) <$> items_of cell))).
Proof.
  intros Hin Hv Htag Hkey Hrow cell answer.
  rewrite (fulfillment_bulleted _ _ _ _ _ _ _ Hin Hv Htag).
  unfold with_place.
  assert (by_place_required CAT req = inl r) as ->
    by by apply by_place_required_hit.
  rewrite bullets_pick. cbn zeta. fold cell. unfold answer. split_and!.
  - intros Hblank. by rewrite Hblank.
  - intros Hne%truthy_true Hitems. by rewrite Hne, Hitems.
  - intros Hitems. destruct (Py.truthy (Py.strip cell)) eqn:Hne.
    + by destruct (items_of cell).
    + apply truthy_false in Hne. destruct Hitems.
      by rewrite <-items_of_strip, Hne.
Qed.

(** X8: for [getActivities] on a place that is found, when the activity
    query is not empty and its trimmed, lower-cased form occurs in some
    item of the activities text, the answer is "Activities in {name}:", a
    newline, and one bullet line for each such item, in their order: the
    ["; "] that the filter joins them with is taken apart again by
    [bullets]. *)
Theorem getActivities_matches
    (HDR TOKEN : string) (CAT : catalog) (req : request) (r : row) :
  verify_secret HDR TOKEN req = true →
  tag_of req = "getActivities" →
  normalize (Some (place_raw req)) ≠ "" →
  dict_get (normalize (Some (place_raw req))) CAT = Some r →
  activity_raw req ≠ "" →
  let hits :=
    List.filter
      (λ seg, Py.contains (Py.lower (Py.strip (activity_raw req)))
                          (Py.lower seg))
      (items_of (pick r Activities "Information not available.")) in
  hits ≠ [] →
  fulfillment HDR TOKEN CAT req
  = reply ("Activities in " +:+ pick r Name (place_raw req) +:+ ":" +:+ nl +:+
           Py.join nl ((λ x, "• " +:+ x) <$> hits)).
Proof.
  intros Hv Htag Hkey Hrow Hq hits Hhits.
  rewrite (fulfillment_getActivities _ _ _ _ Hv Htag). unfold with_place.
  assert (by_place_required CAT req = inl r) as ->
    by by apply by_place_required_hit.
  unfold getActivities. rewrite filter_activity_line_query by done.
  assert (items_of (Py.join "; " hits) = hits) as Hitems
    by apply items_of_join, filter_items_like.
  change (List.filter _ (items_of (pick r Activities placeholder))) with hits.
  assert (match hits with
          | [] => activity_not_found
          | s :: l => Py.join "; " (s :: l)
          end = Py.join "; " hits) as -> by by destruct hits.
  rewrite bullets_some by by rewrite Hitems.
  by rewrite Hitems.
Qed.

(** X9: an activity query of whitespace only keeps every item: the filter
    returns the items joined with ["; "], and [bullets] renders that as it
    renders the unfiltered text; a text with no item gets the not-found
    sentence. *)
Theorem filter_activity_line_blank_query (a q : string) :
  q ≠ "" → Py.strip q = "" →
  (items_of a = [] →
     filter_activity_line a q = "Requested activity not found for this place.") ∧
  (items_of a ≠ [] →
     filter_activity_line a q = Py.join "; " (items_of a) ∧
     bullets (filter_activity_line a q) = bullets a).
Proof.
  intros Hq Hblank. rewrite filter_activity_line_query by done.
  rewrite Hblank. cbn [Py.lower].
  rewrite filter_all by (intros; apply contains_empty).
  split; [by intros ->|]. intros Hitems.
  assert (items_of (Py.join "; " (items_of a)) = items_of a) as Hjoin.
  { apply items_of_join, Forall_forall. intros x Hx.
    by apply (items_of_item_like a). }
  destruct (items_of a) as [|x l] eqn:Ha; [done|]. rewrite <-Ha in *.
  split; [done|].
  rewrite (bullets_some a) by done.
  rewrite bullets_some by by rewrite Hjoin.
  by rewrite Hjoin.
Qed.

(** X10: every record of a loaded catalog is a row of the input with a
    name cell that is not blank, so the by-place handlers show its trimmed
    name cell and never fall back on the text of the request, and the
    recommendation list has a name for every candidate. *)
Theorem loaded_rows_named (rows : list row) (r : row) :
  (r ∈ dict_values (load_catalog rows) →
   r ∈ rows ∧
   ∃ n, r !! "Village Name" = Some n ∧ Py.strip n ≠ "" ∧
        ∀ d, pick r Name d = Py.strip n) ∧
  (∀ col v, Forall is_Some (list_places_by (load_catalog rows) col v)).
Proof.
  assert (∀ r', r' ∈ dict_values (load_catalog rows) →
                r' ∈ rows ∧
                ∃ n, r' !! "Village Name" = Some n ∧ Py.strip n ≠ "" ∧
                     ∀ d, pick r' Name d = Py.strip n) as Hnamed.
  { intros r' Hr'.
    apply dict_values_get in Hr' as [k Hk];
      [|apply load_rows_NoDup; constructor].
    apply load_catalog_get_inv in Hk as (Hne & Hkey & Hin).
    split; [done|]. subst k. unfold key_of in Hne.
    change (FIELD_MAP Name) with "Village Name" in Hne.
    destruct (r' !! "Village Name") as [n|] eqn:Hn; [|done].
    exists n. assert (Py.strip n ≠ "") as Hstrip.
    { intros Hblank. apply Hne. by apply normalize_blank. }
    split_and!; [done..|]. intros d. unfold pick.
    change (FIELD_MAP Name) with "Village Name". rewrite Hn. simpl.
    apply truthy_true in Hstrip. by rewrite Hstrip. }
  split; [apply Hnamed|].
  intros col v. unfold list_places_by.
  apply Forall_fmap, Forall_forall. intros r' Hr'.
  apply list_elem_of_In, filter_In in Hr' as [Hr' _].
  apply list_elem_of_In, Hnamed in Hr' as (_ & n & Hn & _).
  simpl. change (FIELD_MAP Name) with "Village Name". by rewrite Hn.
Qed.

Lemma first_char_app (s t : string) (c : ascii) :
  first_char s = Some c → first_char (s +:+ t) = Some c.
Proof. destruct s; [done|]. by rewrite app_cons. Qed.

(** X12: for [getPlaceDetails] on a place that is found and whose name
    starts with neither a comma nor a space, the answer is the name, the
    district and the state between parentheses, an empty line, the about
    text (or the placeholder), and the "Unique:" block when the unique cell
    is neither blank nor the placeholder. *)
Theorem getPlaceDetails_answer
    (HDR TOKEN : string) (CAT : catalog) (req : request) (r : row)
    (c : ascii) :
  verify_secret HDR TOKEN req = true →
  tag_of req = "getPlaceDetails" →
  normalize (Some (place_raw req)) ≠ "" →
  dict_get (normalize (Some (place_raw req))) CAT = Some r →
  first_char (pick r Name (place_raw req)) = Some c →
  Py.mem c ", " = false →
  fulfillment HDR TOKEN CAT req
  = reply (pick r Name (place_raw req) +:+ " (" +:+ pick r District "" +:+
           ", " +:+ pick r State "" +:+ ")" +:+ nl +:+ nl +:+
           pick r About "Information not available." +:+ unique_block r).
Proof.
  intros Hv Htag Hkey Hrow Hfirst Hc.
  assert (fulfillment HDR TOKEN CAT req
          = with_place CAT req (getPlaceDetails req)) as ->.
  { unfold fulfillment. by rewrite Hv, Htag. }
  unfold with_place.
  assert (by_place_required CAT req = inl r) as ->
    by by apply by_place_required_hit.
  rewrite getPlaceDetails_text, lstrip_by_solid.
  - by rewrite !app_assoc.
  - intros c'. rewrite (first_char_app _ _ c Hfirst). by intros [= <-].
Qed.

(** ** The further properties at concrete inputs *)

Example kullu_keys_after_overwrite :
  dict_keys (load_catalog (kullu_rows ++ [village " NAGGAR" "Mandi"]))
  = ["naggar"; "manikaran"; "kasol"; "tosh"; "malana"; "jana"; "banjar";
     "jibhi"; "shoja"; "sainj"; "tirthan"; "gushaini"; "kibber"] ∧
  dict_get "naggar" (load_catalog (kullu_rows ++ [village " NAGGAR" "Mandi"]))
  = Some (village " NAGGAR" "Mandi").
Proof. split; evaluate. Qed.

Lemma catalog_keys_normalized_witness :
  "greenhill" ≠ "" ∧ all_chars key_char "greenhill" = true.
Proof.
  pose proof (catalog_keys_normalized [green_hill] "greenhill") as [_ H].
  apply H. apply list_elem_of_In. vm_compute. by left.
Defined.

Lemma normalize_insensitive_witness :
  normalize (Some (Py.lower " Example_Village")) = "examplevillage" ∧
  normalize (Some (Py.remove_char "_" " Example_Village"))
  = normalize (Some " Example_Village").
Proof.
  pose proof (normalize_insensitive " Example_Village") as H.
  destruct H as (Hlower & _ & _ & Hunder); [vm_compute; reflexivity|].
  split.
  - rewrite Hlower. vm_compute. reflexivity.
  - apply Hunder. vm_compute. reflexivity.
Defined.

Lemma lookup_after_load_witness :
  by_place_required
    (load_catalog [first_spelling; nameless; second_spelling])
    (ask "getFood" {[ "place" := "GREEN hill" ]})
  = inl second_spelling ∧
  by_place_required
    (load_catalog [first_spelling; nameless; second_spelling])
    (ask "getFood" {[ "place" := "Blue Lake" ]})
  = inr (reply place_not_found).
Proof.
  split.
  - pose proof (lookup_after_load [first_spelling; nameless; second_spelling]
                  (ask "getFood" {[ "place" := "GREEN hill" ]})) as [H _].
    apply (H [first_spelling; nameless] second_spelling []).
    + reflexivity.
    + vm_compute. discriminate.
    + constructor.
    + vm_compute. reflexivity.
  - pose proof (lookup_after_load [first_spelling; nameless; second_spelling]
                  (ask "getFood" {[ "place" := "Blue Lake" ]})) as [_ H].
    apply H. repeat constructor; vm_compute; discriminate.
Defined.


Lemma bulleted_cell_answer_witness :
  fulfillment "X-DF-Secret" "" (load_catalog [lake_view])
    (ask "getAttractions" {[ "place" := "lake_view" ]})
  = reply (Py.join nl
             ["Top attractions in Lake View:"; "• Temple"; "• Lake";
              "• Fort"]) ∧
  fulfillment "X-DF-Secret" "" (load_catalog [lake_view])
    (ask "getFood" {[ "place" := "lake_view" ]})
  = reply (Py.join nl ["Food in Lake View:"; "• Information not available."]).
Proof.
  split.
  - pose proof (bulleted_cell_answer "X-DF-Secret" "" (load_catalog [lake_view])
                  (ask "getAttractions" {[ "place" := "lake_view" ]})
                  lake_view "getAttractions" "Top attractions in " Attractions)
      as H.
    destruct H as (_ & _ & H).
    + apply list_elem_of_here.
    + vm_compute. reflexivity.
    + vm_compute. reflexivity.
    + vm_compute. discriminate.
    + vm_compute. reflexivity.
    + rewrite H by (vm_compute; discriminate). vm_compute. reflexivity.
  - pose proof (bulleted_cell_answer "X-DF-Secret" "" (load_catalog [lake_view])
                  (ask "getFood" {[ "place" := "lake_view" ]})
                  lake_view "getFood" "Food in " Food) as H.
    destruct H as (H & _).
    + apply list_elem_of_further, list_elem_of_here.
    + vm_compute. reflexivity.
    + vm_compute. reflexivity.
    + vm_compute. discriminate.
    + vm_compute. reflexivity.
    + rewrite H by (vm_compute; reflexivity). vm_compute. reflexivity.
Defined.

Lemma getActivities_matches_witness :
  fulfillment "X-DF-Secret" "" (load_catalog [green_hill])
    (ask "getActivities" {[ "place" := "Green Hill"; "activity" := " ING " ]})
  = reply (Py.join nl
             ["Activities in Green Hill:"; "• Fishing"; "• Bird watching";
              "• Hiking"]).
Proof.
  rewrite (getActivities_matches "X-DF-Secret" "" (load_catalog [green_hill])
             (ask "getActivities"
                {[ "place" := "Green Hill"; "activity" := " ING " ]})
             green_hill).
  - vm_compute. reflexivity.
  - vm_compute. reflexivity.
  - vm_compute. reflexivity.
  - vm_compute. discriminate.
  - vm_compute. reflexivity.
  - vm_compute. discriminate.
  - vm_compute. discriminate.
Defined.

Lemma filter_activity_line_blank_query_witness :
  filter_activity_line " Fishing ;; Hiking" "  " = "Fishing; Hiking" ∧
  bullets (filter_activity_line " Fishing ;; Hiking" "  ")
  = bullets " Fishing ;; Hiking".
Proof.
  pose proof (filter_activity_line_blank_query " Fishing ;; Hiking" "  ")
    as H.
  destruct H as [_ H]; [vm_compute; discriminate | vm_compute; reflexivity|].
  destruct H as [H1 H2]; [vm_compute; discriminate|].
  split; [rewrite H1; vm_compute; reflexivity | exact H2].
Defined.

Lemma loaded_rows_named_witness :
  lake_view ∈ [lake_view] ∧
  ∃ n, lake_view !! "Village Name" = Some n ∧ Py.strip n ≠ "" ∧
       ∀ d, pick lake_view Name d = Py.strip n.
Proof.
  pose proof (loaded_rows_named [lake_view] lake_view) as [H _].
  apply H. apply list_elem_of_In. vm_compute. by left.
Defined.

Lemma getPlaceDetails_answer_witness :
  fulfillment "X-DF-Secret" "" (load_catalog kullu_rows)
    (ask "getPlaceDetails" {[ "place" := "kasol" ]})
  = reply (Py.join nl ["Kasol (Kullu, )"; ""; "Information not available."]).
Proof.
  rewrite (getPlaceDetails_answer "X-DF-Secret" "" (load_catalog kullu_rows)
             (ask "getPlaceDetails" {[ "place" := "kasol" ]})
             (village "Kasol" "Kullu") "K").
  - vm_compute. reflexivity.
  - vm_compute. reflexivity.
  - vm_compute. reflexivity.
  - vm_compute. discriminate.
  - vm_compute. reflexivity.
  - vm_compute. reflexivity.
  - vm_compute. reflexivity.
Defined.
